(** * Verification of the [structure] management command of dj-app-structure

    Source: [src/app_structure/management/commands/structure.py].

    The command runs sequential filesystem I/O.  It is modelled as follows.

    - A path string [s] is represented by its pieces [s.split('/')]
      ([path := list string]); the pieces determine the string, e.g.
      [""] is the empty string, [["";""]] is ["/"], [["";"a";""]] is ["/a/"].
    - The filesystem is a finite map from resolved absolute locations
      (lists of names below the root) to entries; the root [[]] is always a
      directory.
    - The process' working directory is the location [cwd].
    - Python's [os.path.join], [os.path.split], [os.path.exists],
      [os.remove], [os.mkdir], [os.makedirs] and [open(_, "w")] are written
      out over this model (no symbolic links, no permission errors).
    - The command runs in a state and exception monad: the state is the
      filesystem together with the messages written to [self.stdout]; an
      uncaught [OSError] stops the run and keeps the state reached so far. *)

From stdpp Require Import base gmap strings list.
From Stdlib Require Import String Ascii.

Local Open Scope string_scope.
Local Open Scope list_scope.

(** ** Paths and the filesystem *)

Definition path := list string.

Inductive entry : Type :=
| Dir
| File (contents : string).

Global Instance entry_eq_dec : EqDecision entry.
Proof. solve_decision. Defined.

Abbreviation fs := (gmap (list string) entry).

Inductive errno : Type := ENOENT | ENOTDIR | EEXIST | EISDIR.

(** [self.style.ERROR], [WARNING] and [SUCCESS] messages. *)
Inductive msg : Type :=
| ERROR (text : string)
| WARNING (text : string)
| SUCCESS (text : string).

(** [s.split('/')] *)
Fixpoint split_slash (s : string) (cur : string) : list string :=
  match s with
  | EmptyString => [cur]
  | String c rest =>
      if Ascii.eqb c "/"%char then cur :: split_slash rest ""
      else split_slash rest (cur ++ String c EmptyString)%string
  end.

Definition split_path (s : string) : path := split_slash s "".

(** ['/'.join(pieces)]: the string a path denotes, as printed in messages. *)
Definition render (p : path) : string := String.concat "/" p.

Definition lastp (p : path) : string := List.last p "".

(** [posixpath.join(a, b)]: [b] replaces [a] when it starts with ['/'];
    otherwise the two are concatenated, with a ['/'] in between unless
    [a] is empty or already ends with ['/']. *)
Definition is_abs (p : path) : bool :=
  match p with
  | EmptyString :: _ :: _ => true
  | _ => false
  end.

Definition posix_join (a b : path) : path :=
  if is_abs b then b
  else if String.eqb (lastp a) "" then removelast a ++ b
  else a ++ b.

(** [os.path.join(a, *p)] *)
Definition posix_join_many (a : path) (bs : list path) : path :=
  fold_left posix_join bs a.

(** [s.rstrip('/')] on pieces: drop trailing empty pieces. *)
Fixpoint drop_empties (l : list string) : list string :=
  match l with
  | EmptyString :: r => drop_empties r
  | _ => l
  end.

Definition strip_trailing (p : path) : path := rev (drop_empties (rev p)).

(** [posixpath.split(p)] *)
Definition posix_split (p : path) : path * string :=
  let t := lastp p in
  let r := removelast p in
  let h := match r with
           | [] => [""]
           | _ => if forallb (String.eqb "") r then r ++ [""] else strip_trailing r
           end in
  (h, t).

Definition nonempty_path (p : path) : bool :=
  match p with
  | [EmptyString] | [] => false
  | _ => true
  end.

(** Entries and directories; the root always exists as a directory. *)
Definition entry_at (m : fs) (c : list string) : option entry :=
  match c with
  | [] => Some Dir
  | _ => m !! c
  end.

Definition is_dir (m : fs) (c : list string) : bool :=
  match entry_at m c with
  | Some Dir => true
  | _ => false
  end.

Definition present (m : fs) (c : list string) : bool :=
  match entry_at m c with
  | Some _ => true
  | None => false
  end.

(** Path resolution by the kernel: every piece is looked up in the
    current location, which must be a directory; [""] and ["."] stay,
    [".."] goes to the parent. *)
Definition step (cur : list string) (c : string) : list string :=
  if String.eqb c "" then cur
  else if String.eqb c "." then cur
  else if String.eqb c ".." then removelast cur
  else cur ++ [c].

Definition dir_check (m : fs) (cur : list string) : errno + unit :=
  match entry_at m cur with
  | Some Dir => inr tt
  | Some (File _) => inl ENOTDIR
  | None => inl ENOENT
  end.

Fixpoint walk (m : fs) (cur : list string) (cs : list string) : errno + list string :=
  match cs with
  | [] => inr cur
  | c :: rest =>
      match dir_check m cur with
      | inr _ => walk m (step cur c) rest
      | inl e => inl e
      end
  end.

(** ** The state and exception monad *)

Record state : Type := mkState { fsys : fs; out : list msg }.

Inductive res (A : Type) : Type :=
| Ok (a : A) (s : state)
| Exc (e : errno) (s : state).
Arguments Ok {A} a s.
Arguments Exc {A} e s.

Definition M (A : Type) : Type := state -> res A.

Definition retM {A} (a : A) : M A := fun s => Ok a s.

Definition bindM {A B} (k : A -> M B) (c : M A) : M B :=
  fun s => match c s with
           | Ok a s' => k a s'
           | Exc e s' => Exc e s'
           end.

(** stdpp's monad notations [x ← c; k] and [c ;; k] over [M]. *)
Global Instance M_ret : MRet M := @retM.
Global Instance M_bind : MBind M := @bindM.

Definition raise {A} (e : errno) : M A := fun s => Exc e s.

(** [self.stdout.write(...)] *)
Definition emit (x : msg) : M unit :=
  fun s => Ok tt (mkState (fsys s) (out s ++ [x])).

Definition set_fs (m : fs) : M unit := fun s => Ok tt (mkState m (out s)).

Definition read_fs {A} (f : fs -> A) : M A := fun s => Ok (f (fsys s)) s.

(** [for x in xs: body(x)] *)
Fixpoint mfor {A} (xs : list A) (body : A -> M unit) : M unit :=
  match xs with
  | [] => mret tt
  | x :: rest => body x ;; mfor rest body
  end.

(** [try: c  except FileExistsError: pass] *)
Definition catch_eexist (c : M unit) : M unit :=
  fun s => match c s with
           | Exc EEXIST s' => Ok tt s'
           | r => r
           end.

Section Os.

(** The working directory of the process. *)
Variable cwd : list string.

(** Where resolution of a path starts, and the pieces it walks: absolute
    paths start at the root, relative ones at [cwd]; the empty string
    names nothing. *)
Definition start_of (p : path) : option (list string * list string) :=
  match p with
  | [] | [EmptyString] => None
  | EmptyString :: rest => Some ([], rest)
  | _ => Some (cwd, p)
  end.

(** Resolution of a whole path (as for [stat]). *)
Definition resolve (m : fs) (p : path) : errno + list string :=
  match start_of p with
  | None => inl ENOENT
  | Some (start, cs) => walk m start cs
  end.

(** Resolution of all pieces but the last (as for [mkdir], [open] with
    [O_CREAT]): the directory that must hold the entry, and its name. *)
Definition resolve_parent (m : fs) (p : path) : errno + (list string * string) :=
  match start_of p with
  | None => inl ENOENT
  | Some (start, cs) =>
      match walk m start (removelast cs) with
      | inl e => inl e
      | inr d =>
          match dir_check m d with
          | inl e => inl e
          | inr _ => inr (d, lastp cs)
          end
      end
  end.

(** [os.path.exists(p)]: [stat] succeeds; every [OSError] gives [False]. *)
Definition exists_b (m : fs) (p : path) : bool :=
  match resolve m p with
  | inr c => present m c
  | inl _ => false
  end.

(** [os.getcwd()]: fails when the working directory is gone. *)
Definition cwd_path : path := match cwd with [] => ["";""] | _ => "" :: cwd end.

Definition os_getcwd : M path :=
  fun s => if is_dir (fsys s) cwd then Ok cwd_path s else Exc ENOENT s.

Definition os_path_exists (p : path) : M bool := read_fs (fun m => exists_b m p).

(** [os.remove(p)] ([unlink]). *)
Definition os_remove (p : path) : M unit :=
  fun s => let m := fsys s in
    match resolve m p with
    | inl e => Exc e s
    | inr c =>
        match entry_at m c with
        | Some (File _) => Ok tt (mkState (delete c m) (out s))
        | Some Dir => Exc EISDIR s
        | None => Exc ENOENT s
        end
    end.

(** [os.mkdir(p)]: trailing slashes are allowed; the last name must be
    new and its parent an existing directory. *)
Definition os_mkdir (p : path) : M unit :=
  fun s => let m := fsys s in
    match strip_trailing p with
    | [] => Exc (if nonempty_path p then EEXIST else ENOENT) s
    | q =>
        match resolve_parent m q with
        | inl e => Exc e s
        | inr (d, n) =>
            if String.eqb n "." || String.eqb n ".." then Exc EEXIST s
            else if present m (d ++ [n]) then Exc EEXIST s
            else Ok tt (mkState (<[d ++ [n] := Dir]> m) (out s))
        end
    end.

(** [with open(p, "w"): pass]: create or truncate a regular file. *)
Definition open_w (p : path) : M unit :=
  fun s => let m := fsys s in
    match resolve_parent m p with
    | inl e => Exc e s
    | inr (d, n) =>
        if String.eqb n "" || String.eqb n "." || String.eqb n ".." then Exc EISDIR s
        else match entry_at m (d ++ [n]) with
             | Some Dir => Exc EISDIR s
             | _ => Ok tt (mkState (<[d ++ [n] := File ""]> m) (out s))
             end
    end.

(** [os.makedirs(name)] with [exist_ok=False]:
<<
    head, tail = path.split(name)
    if not tail:
        head, tail = path.split(head)
    if head and tail and not path.exists(head):
        try:
            makedirs(head, exist_ok=exist_ok)
        except FileExistsError:
            pass
        if tail == curdir:
            return
    try:
        mkdir(name, mode)
    except OSError:
        if not exist_ok or not path.isdir(name):
            raise
>>
    Every recursive call is on a head with fewer pieces than [name], so
    [List.length name] units of fuel are never exhausted. *)
Fixpoint makedirs_fuel (fuel : nat) (name : path) : M unit :=
  match fuel with
  | O => os_mkdir name
  | S fuel' =>
      let '(head, tail) :=
        let '(h, t) := posix_split name in
        if String.eqb t "" then posix_split h else (h, t) in
      if nonempty_path head && negb (String.eqb tail "") then
        ex ← os_path_exists head;
        if (ex : bool) then os_mkdir name
        else
          catch_eexist (makedirs_fuel fuel' head) ;;
          if String.eqb tail "." then mret tt else os_mkdir name
      else os_mkdir name
  end.

Definition os_makedirs (name : path) : M unit := makedirs_fuel (List.length name) name.

(** ** The command *)

(** [Command.create_folder_with_init] *)
Definition create_folder_with_init (p : path) : M unit :=
  ex ← os_path_exists p;
  if (ex : bool) then mret tt
  else
    os_makedirs p ;;
    let init_path := posix_join p ["__init__.py"] in
    open_w init_path ;;
    emit (SUCCESS ("Created " ++ render p)).

Definition default_files : list string := ["models.py"; "admin.py"; "tests.py"; "views.py"].

(** [Command.remove_default_files] *)
Definition remove_default_files (base_dir : path) : M unit :=
  mfor default_files (fun filename =>
    let file_path := posix_join base_dir [filename] in
    ex ← os_path_exists file_path;
    if (ex : bool) then
      os_remove file_path ;;
      emit (WARNING ("Removed " ++ render file_path))
    else mret tt).

(** [Command.create_folder_structure] *)
Definition create_folder_structure (base_dir : path)
    (structure : list (string * list string)) : M unit :=
  mfor structure (fun '(folder, subfolders) =>
    let folder_path := posix_join base_dir [folder] in
    create_folder_with_init folder_path ;;
    mfor subfolders (fun subfolder =>
      let subfolder_path := posix_join folder_path [subfolder] in
      create_folder_with_init subfolder_path)).

(** The dictionary literal of [handle], in insertion order. *)
Definition structure : list (string * list string) :=
  [("admin", []);
   ("api", ["exceptions"; "filters"; "orderings"; "paginations"; "permissions";
            "schema"; "routers"; "serializers"; "throttlings"; "views"]);
   ("models", ["helper"]);
   ("repository", ["manager"; "queryset"]);
   ("signals", []);
   ("tests", ["models"; "api"; "admin"]);
   ("validators", [])].

(** [Command.handle] with [kwargs["app_name"] = app_name]. *)
Definition handle (app_name : string) : M unit :=
  cwd_path ← os_getcwd;
  let base_dir := posix_join cwd_path (split_path app_name) in
  ex ← os_path_exists base_dir;
  if negb ex then
    emit (ERROR ("App '" ++ app_name ++ "' does not exist"))
  else
    remove_default_files base_dir ;;
    create_folder_structure base_dir structure ;;
    let enums_path := posix_join_many base_dir [["models"]; ["helper"]; ["enums"]] in
    create_folder_with_init enums_path ;;
    emit (SUCCESS ("Structure created for app '" ++ app_name ++ "'")).

End Os.

(** The path [handle] computes as [base_dir]. *)
Definition base_path (cwd : list string) (app_name : string) : path :=
  posix_join (cwd_path cwd) (split_path app_name).

Definition final_msg (app_name : string) : msg :=
  SUCCESS ("Structure created for app '" ++ app_name ++ "'").

(** ** Invariants of the filesystem *)

(** Every entry lies in an existing directory. *)
Definition wf (m : fs) : Prop :=
  forall k e, m !! k = Some e -> k <> [] /\ is_dir m (removelast k) = true.

(** A name that resolution appends as it is. *)
Definition plainb (n : string) : bool :=
  negb (String.eqb n "") && negb (String.eqb n ".") && negb (String.eqb n "..").

(** ** The run, step by step, on resolved locations

    Once [base_dir] is known to resolve to the location [B], every step of
    [handle] is one of these operations. *)
Inductive op : Type :=
| RemoveOp (filename : string)
| CreateOp (rel : list string).

(** The path string passed for a relative location [rel] below [base_dir],
    e.g. [os.path.join(base_dir, "models", "helper", "enums")]. *)
Definition op_path (q : path) (rel : list string) : path :=
  posix_join_many q (map (fun x => [x]) rel).

Definition aop (q : path) (B : list string) (o : op) : M unit :=
  fun s => let m := fsys s in
  match o with
  | RemoveOp d =>
      match entry_at m (B ++ [d]) with
      | None => Ok tt s
      | Some (File _) =>
          Ok tt (mkState (delete (B ++ [d]) m)
                   (out s ++ [WARNING ("Removed " ++ render (op_path q [d]))]))
      | Some Dir => Exc EISDIR s
      end
  | CreateOp rel =>
      let c := B ++ removelast rel in
      let n := lastp rel in
      if present m (c ++ [n]) then Ok tt s
      else if is_dir m c then
        Ok tt (mkState (<[c ++ [n; "__init__.py"] := File ""]> (<[c ++ [n] := Dir]> m))
                 (out s ++ [SUCCESS ("Created " ++ render (op_path q rel))]))
      else Exc ENOTDIR s
  end.

(** The creations of [create_folder_structure], flattened. *)
Definition flatten_structure (tbl : list (string * list string)) : list op :=
  List.concat (map (fun '(f, subs) => CreateOp [f] :: map (fun x => CreateOp [f; x]) subs) tbl).

Definition code_ops : list op :=
  map RemoveOp default_files ++ flatten_structure structure
  ++ [CreateOp ["models"; "helper"; "enums"]].

(** The pieces of a path without its trailing separator. *)
Definition trim (cs : list string) : list string :=
  if String.eqb (lastp cs) "" then removelast cs else cs.

Definition all_empty (l : list string) : bool := forallb (String.eqb "") l.

Definition res_state {A} (r : res A) : state :=
  match r with
  | Ok _ s => s
  | Exc _ s => s
  end.

Definition is_ok {A} (r : res A) : bool :=
  match r with
  | Ok _ _ => true
  | Exc _ _ => false
  end.

(** ** Auxiliary definitions

    Invariants, step predicates, the plans of a run and the example
    filesystems used below. *)

(** The facts about the filesystem that keep [base_dir] resolving to [B]. *)
Definition base_inv (cwd : list string) (q : path) (B : list string) (s : state) : Prop :=
  wf (fsys s) /\ present (fsys s) B = true /\
  exists st cs, start_of cwd q = Some (st, cs) /\ walk (fsys s) st cs = inr B.

(** A creation target: non-empty, made of plain names, not one of the
    default files, and never named [__init__.py]. *)
Definition create_ok (rel : list string) : bool :=
  negb (bool_decide (rel = [])) && forallb plainb rel &&
  negb (existsb (fun d => bool_decide (rel = [d])) default_files) &&
  negb (bool_decide ("__init__.py" ∈ rel)).

Definition op_ok (o : op) : bool :=
  match o with
  | RemoveOp d => bool_decide (d ∈ default_files) && plainb d
  | CreateOp rel => create_ok rel
  end.

(** A step whose effect is already in place. *)
Definition settled (B : list string) (o : op) (m : fs) : Prop :=
  match o with
  | RemoveOp d => entry_at m (B ++ [d]) = None
  | CreateOp rel => present m (B ++ rel) = true
  end.

Definition created_msg (q : path) (rel : list string) : msg :=
  SUCCESS ("Created " ++ render (op_path q rel)).

(** The map after a creation step on [rel], and after a list of them. *)
Definition ins (B rel : list string) (m : fs) : fs :=
  <[B ++ rel ++ ["__init__.py"] := File ""]> (<[B ++ rel := Dir]> m).

Definition run_creates (B : list string) (rels : list (list string)) (m : fs) : fs :=
  fold_left (fun m rel => ins B rel m) rels m.

(** What [run_creates] puts at [B ++ r], given what was there before. *)
Fixpoint tree_lookup (rels : list (list string)) (r : list string) (dflt : option entry)
    : option entry :=
  match rels with
  | [] => dflt
  | rel :: rs =>
      tree_lookup rs r
        (if bool_decide (r = rel ++ ["__init__.py"]) then Some (File "")
         else if bool_decide (r = rel) then Some Dir else dflt)
  end.

(** Each creation target is new and lies in a directory made before it (or
    in [B] itself). *)
Fixpoint fresh_plan (prior rels : list (list string)) : bool :=
  match rels with
  | [] => true
  | rel :: rs =>
      negb (bool_decide (rel = [])) &&
      bool_decide (tree_lookup prior rel None = None) &&
      (bool_decide (removelast rel = []) ||
       bool_decide (tree_lookup prior (removelast rel) None = Some Dir)) &&
      fresh_plan (prior ++ [rel]) rs
  end.

(** The creation targets of [code_ops], in order. *)
Definition code_creations : list (list string) :=
  flat_map (fun o => match o with CreateOp rel => [rel] | RemoveOp _ => [] end) code_ops.

(** The folders of the filesystem contract, relative to [base_dir]. *)
Definition scaffold_dirs : list (list string) :=
  [["admin"]; ["api"]; ["api"; "exceptions"]; ["api"; "filters"]; ["api"; "orderings"];
   ["api"; "paginations"]; ["api"; "permissions"]; ["api"; "schema"]; ["api"; "routers"];
   ["api"; "serializers"]; ["api"; "throttlings"]; ["api"; "views"];
   ["models"]; ["models"; "helper"]; ["models"; "helper"; "enums"];
   ["repository"]; ["repository"; "manager"]; ["repository"; "queryset"];
   ["signals"]; ["tests"]; ["tests"; "models"]; ["tests"; "api"]; ["tests"; "admin"];
   ["validators"]].

(** The entry the contract puts at [base_dir/r]: the folders, an empty
    [__init__.py] in each, nothing else. *)
Definition scaffold_entry (r : list string) : option entry :=
  if bool_decide (r ∈ scaffold_dirs) then Some Dir
  else if bool_decide (r <> [] /\ lastp r = "__init__.py" /\ removelast r ∈ scaffold_dirs)
  then Some (File "")
  else None.

(** The order of operations as the specification lists it: the default
    files, the table in key order with each folder before its subfolders,
    then [models/helper/enums]. *)
Definition spec_order : list op :=
  map RemoveOp ["models.py"; "admin.py"; "tests.py"; "views.py"] ++
  map CreateOp
    [["admin"];
     ["api"]; ["api"; "exceptions"]; ["api"; "filters"]; ["api"; "orderings"];
     ["api"; "paginations"]; ["api"; "permissions"]; ["api"; "schema"]; ["api"; "routers"];
     ["api"; "serializers"]; ["api"; "throttlings"]; ["api"; "views"];
     ["models"]; ["models"; "helper"];
     ["repository"]; ["repository"; "manager"]; ["repository"; "queryset"];
     ["signals"];
     ["tests"]; ["tests"; "models"]; ["tests"; "api"]; ["tests"; "admin"];
     ["validators"]] ++
  [CreateOp ["models"; "helper"; "enums"]].

(** The locations [c/n1], [c/n1/n2], ... along [r] below [c]. *)
Fixpoint chain (c r : list string) : list (list string) :=
  match r with
  | [] => []
  | n :: rest => (c ++ [n]) :: chain (c ++ [n]) rest
  end.

(** The filesystem after every missing location along [r] is made a directory. *)
Fixpoint mk_chain (c r : list string) (m : fs) : fs :=
  match r with
  | [] => m
  | n :: rest =>
      mk_chain (c ++ [n]) rest (if present m (c ++ [n]) then m else <[c ++ [n] := Dir]> m)
  end.

(** Every location along [r] below [c] that exists is a directory. *)
Fixpoint anc_ok (m : fs) (c r : list string) : bool :=
  match r with
  | [] => true
  | n :: rest => (negb (present m (c ++ [n])) || is_dir m (c ++ [n])) && anc_ok m (c ++ [n]) rest
  end.

(** [/home] is the working directory and [/home/myapp] an empty app directory. *)
Definition ex_fs : fs := <[["home"; "myapp"] := Dir]> (<[["home"] := Dir]> ∅).

(** [/home/myapp] holds the file [admin.py]. *)
Definition ex_fs_admin : fs := <[["home"; "myapp"; "admin.py"] := File "x"]> ex_fs.

(** [/home/myapp] is a regular file. *)
Definition ex_fs_file : fs := <[["home"; "myapp"] := File "x"]> (<[["home"] := Dir]> ∅).

(** [/home/myapp] holds a directory [models.py] and a file [admin.py]. *)
Definition ex_fs_models_dir : fs :=
  <[["home"; "myapp"; "admin.py"] := File "x"]> (<[["home"; "myapp"; "models.py"] := Dir]> ex_fs).

(** The working directory [/home] holds a directory [models.py] and a file [admin.py]. *)
Definition ex_fs_cwd : fs :=
  <[["home"; "admin.py"] := File "x"]> (<[["home"; "models.py"] := Dir]> (<[["home"] := Dir]> ∅)).

(** [/home/f] is a regular file. *)
Definition ex_fs_parent_file : fs := <[["home"; "f"] := File "x"]> (<[["home"] := Dir]> ∅).

(** The map after [os.remove] of every [B/d], [d] in [ds], in order. *)
Definition delete_defaults (B : list string) (ds : list string) (m : fs) : fs :=
  fold_left (fun m d => delete (B ++ [d]) m) ds m.

(** Each creation target lies directly in [B] or in a target listed before it. *)
Fixpoint parents_first (prior rels : list (list string)) : bool :=
  match rels with
  | [] => true
  | rel :: rs =>
      (bool_decide (removelast rel = []) || bool_decide (removelast rel ∈ prior)) &&
      parents_first (prior ++ [rel]) rs
  end.

(** [B] is a directory, and every creation target that exists is a directory. *)
Definition scaffold_inv (B : list string) (m : fs) : Prop :=
  is_dir m B = true /\
  forall rel, rel ∈ code_creations -> present m (B ++ rel) = true -> is_dir m (B ++ rel) = true.

(** ** Lemmas on the monad *)

Ltac unfold_monad :=
  unfold mbind, M_bind, bindM, mret, M_ret, retM in *.

Lemma mfor_app {A} (xs ys : list A) (f : A -> M unit) s :
  mfor (xs ++ ys) f s =
  match mfor xs f s with
  | Ok _ s' => mfor ys f s'
  | Exc e s' => Exc e s'
  end.
Proof.
  revert s. induction xs as [|x xs IH]; intros s; simpl; unfold_monad; [reflexivity|].
  destruct (f x s) as [[] s'|e s']; [apply IH|reflexivity].
Qed.

Lemma mfor_ext_inv {A} (Inv : state -> Prop) (xs : list A) (f g : A -> M unit) :
  (forall x s, In x xs -> Inv s -> f x s = g x s) ->
  (forall x s s', In x xs -> Inv s -> g x s = Ok tt s' -> Inv s') ->
  forall s, Inv s -> mfor xs f s = mfor xs g s.
Proof.
  induction xs as [|x xs IH]; intros Hfg Hpres s Hs; simpl; unfold_monad; [reflexivity|].
  rewrite (Hfg x s (or_introl eq_refl) Hs).
  destruct (g x s) as [[] s'|e s'] eqn:Hg; [|reflexivity].
  apply IH; eauto using in_cons.
  eapply Hpres; eauto. left; reflexivity.
Qed.

Lemma mfor_inv {A} (Inv : state -> Prop) (xs : list A) (f : A -> M unit) :
  (forall x s, In x xs -> Inv s -> Inv (res_state (f x s))) ->
  forall s, Inv s -> Inv (res_state (mfor xs f s)).
Proof.
  induction xs as [|x xs IH]; intros Hpres s Hs; simpl; unfold_monad; [exact Hs|].
  pose proof (Hpres x s (or_introl eq_refl) Hs) as Hx.
  destruct (f x s) as [[] s'|e s']; simpl in *; [|exact Hx].
  apply IH; eauto using in_cons.
Qed.

(** ** Lemmas on pieces *)

Lemma step_plain c n : plainb n = true -> step c n = c ++ [n].
Proof.
  unfold plainb, step.
  destruct (String.eqb n ""), (String.eqb n "."), (String.eqb n ".."); simpl; congruence.
Qed.

Lemma plainb_nonempty n : plainb n = true -> String.eqb n "" = false.
Proof. unfold plainb. destruct (String.eqb n ""); simpl; congruence. Qed.

Lemma lastp_snoc (l : list string) n : lastp (l ++ [n]) = n.
Proof. unfold lastp. apply last_last. Qed.

Lemma removelast_snoc (l : list string) n : removelast (l ++ [n]) = l.
Proof. apply removelast_last. Qed.

Lemma entry_at_snoc m c n : entry_at m (c ++ [n]) = m !! (c ++ [n]).
Proof. destruct c; reflexivity. Qed.

Lemma snoc_decomp (l : list string) : l <> [] -> l = removelast l ++ [lastp l].
Proof. intros H. unfold lastp. apply app_removelast_last. exact H. Qed.

Lemma posix_join_single q n : posix_join q [n] = trim q ++ [n].
Proof. unfold posix_join, trim. destruct n; simpl; destruct (String.eqb (lastp q) ""); reflexivity. Qed.

Lemma drop_empties_all l : all_empty l = true -> drop_empties l = [].
Proof.
  induction l as [|x l IH]; simpl; [reflexivity|].
  destruct x; simpl; [exact IH|discriminate].
Qed.

Lemma drop_empties_app l1 l2 :
  drop_empties (l1 ++ l2) =
  if all_empty l1 then drop_empties l2 else drop_empties l1 ++ l2.
Proof.
  induction l1 as [|x l1 IH]; simpl; [reflexivity|].
  destruct x; simpl; [exact IH|reflexivity].
Qed.

Lemma all_empty_app l1 l2 : all_empty (l1 ++ l2) = all_empty l1 && all_empty l2.
Proof. unfold all_empty. apply forallb_app. Qed.

Lemma all_empty_rev l : all_empty (rev l) = all_empty l.
Proof.
  induction l as [|x l IH]; simpl; [reflexivity|].
  rewrite all_empty_app, IH. simpl. rewrite andb_true_r, andb_comm. reflexivity.
Qed.

Lemma strip_cons x l :
  String.eqb x "" = false \/ all_empty l = false ->
  strip_trailing (x :: l) = x :: strip_trailing l.
Proof.
  intros H. unfold strip_trailing. simpl. rewrite drop_empties_app, all_empty_rev.
  destruct (all_empty l) eqn:E.
  - destruct H as [H|H]; [|discriminate].
    rewrite (drop_empties_all (rev l)) by (rewrite all_empty_rev; exact E).
    destruct x; [discriminate|reflexivity].
  - rewrite rev_app_distr. reflexivity.
Qed.

Lemma strip_snoc l n : String.eqb n "" = false -> strip_trailing (l ++ [n]) = l ++ [n].
Proof.
  intros H. unfold strip_trailing. rewrite rev_app_distr. simpl.
  destruct n; [discriminate|]. simpl. rewrite rev_involutive. reflexivity.
Qed.

Lemma drop_empties_split l : exists E, all_empty E = true /\ l = E ++ drop_empties l.
Proof.
  induction l as [|x l IH]; simpl.
  - exists []. auto.
  - destruct x.
    + destruct IH as [E [HE Hl]]. exists ("" :: E). simpl. rewrite HE. split; [reflexivity|].
      rewrite Hl at 1. reflexivity.
    + exists []. auto.
Qed.

Lemma strip_split l : exists E, all_empty E = true /\ l = strip_trailing l ++ E.
Proof.
  destruct (drop_empties_split (rev l)) as [E [HE Hl]].
  exists (rev E). split; [rewrite all_empty_rev; exact HE|].
  unfold strip_trailing. rewrite <- rev_app_distr, <- Hl, rev_involutive. reflexivity.
Qed.

Lemma strip_not_empty l : all_empty l = false -> all_empty (strip_trailing l) = false.
Proof.
  intros H. destruct (strip_split l) as [E [HE Hl]].
  rewrite Hl, all_empty_app, HE, andb_true_r in H. exact H.
Qed.

(** ** Lemmas on resolution *)

Lemma walk_app m st xs ys :
  walk m st (xs ++ ys) =
  match walk m st xs with
  | inr c => walk m c ys
  | inl e => inl e
  end.
Proof.
  revert st. induction xs as [|x xs IH]; intros st; simpl; [reflexivity|].
  destruct (dir_check m st); [reflexivity|apply IH].
Qed.

Lemma walk_empties m st E c :
  all_empty E = true -> walk m st E = inr c -> c = st.
Proof.
  revert st. induction E as [|x E IH]; intros st HE Hw; simpl in *; [congruence|].
  destruct x; [|discriminate].
  destruct (dir_check m st); [discriminate|].
  apply (IH st HE Hw).
Qed.

Lemma walk_all_empty m st E :
  all_empty E = true -> is_dir m st = true -> walk m st E = inr st.
Proof.
  intros HE Hd. induction E as [|x E IH]; simpl in *; [reflexivity|].
  destruct x; [|discriminate].
  unfold dir_check, is_dir in *. destruct (entry_at m st) as [[]|]; try discriminate.
  apply IH; exact HE.
Qed.

Lemma walk_prefix_empties m st l E c :
  all_empty E = true -> walk m st (l ++ E) = inr c -> walk m st l = inr c.
Proof.
  intros HE Hw. rewrite walk_app in Hw.
  destruct (walk m st l) as [e|c'] eqn:Hl; [discriminate|].
  apply walk_empties in Hw; [subst; reflexivity|exact HE].
Qed.

Lemma walk_strip m st l c :
  walk m st l = inr c -> walk m st (strip_trailing l) = inr c.
Proof.
  intros Hw. destruct (strip_split l) as [E [HE Hl]].
  rewrite Hl in Hw. eapply walk_prefix_empties; eauto.
Qed.

Lemma walk_trim m st cs c : walk m st cs = inr c -> walk m st (trim cs) = inr c.
Proof.
  unfold trim. destruct (String.eqb (lastp cs) "") eqn:E; [|auto].
  destruct cs as [|x cs']; [simpl; auto|].
  apply String.eqb_eq in E.
  rewrite (snoc_decomp (x :: cs')) at 1 by discriminate.
  intros Hw. eapply walk_prefix_empties; [|exact Hw]. rewrite E. reflexivity.
Qed.

(** Appending a plain name to a path: resolution appends it to the
    location, provided the location is a directory. *)
Lemma walk_jp m st cs n :
  plainb n = true ->
  walk m st (trim cs ++ [n]) =
  match walk m st cs with
  | inr c => match dir_check m c with inr _ => inr (c ++ [n]) | inl e => inl e end
  | inl e => inl e
  end.
Proof.
  intros Hn. unfold trim. destruct (String.eqb (lastp cs) "") eqn:E.
  - destruct cs as [|x cs'].
    + simpl. destruct (dir_check m st); [reflexivity|]. rewrite step_plain by exact Hn. reflexivity.
    + apply String.eqb_eq in E.
      rewrite (snoc_decomp (x :: cs')) at 2 by discriminate.
      rewrite E.
      rewrite !walk_app. destruct (walk m st (removelast (x :: cs'))) as [e|c]; [reflexivity|].
      simpl. destruct (dir_check m c) eqn:Hd; [reflexivity|].
      rewrite step_plain by exact Hn. simpl. unfold step. simpl. rewrite Hd. reflexivity.
  - rewrite walk_app. destruct (walk m st cs) as [e|c]; [reflexivity|].
    simpl. destruct (dir_check m c); [reflexivity|]. rewrite step_plain by exact Hn. reflexivity.
Qed.

Lemma walk_mono m m' st cs c :
  (forall l, entry_at m l = Some Dir -> entry_at m' l = Some Dir) ->
  walk m st cs = inr c -> walk m' st cs = inr c.
Proof.
  intros Hm. revert st. induction cs as [|x cs IH]; intros st Hw; simpl in *; [exact Hw|].
  unfold dir_check in *. destruct (entry_at m st) as [[]|] eqn:E; try discriminate.
  rewrite (Hm _ E). apply IH; exact Hw.
Qed.

Lemma wf_child m c n : wf m -> is_dir m c = false -> m !! (c ++ [n]) = None.
Proof.
  intros Hwf Hd. destruct (m !! (c ++ [n])) as [e|] eqn:E; [|reflexivity].
  apply Hwf in E. rewrite removelast_snoc in E. destruct E as [_ E]. congruence.
Qed.

Lemma wf_child_absent m c n : wf m -> present m c = false -> m !! (c ++ [n]) = None.
Proof.
  intros Hwf Hp. apply wf_child; [exact Hwf|].
  unfold present, is_dir in *. destruct (entry_at m c); congruence.
Qed.

Lemma present_child_dir m c n : wf m -> present m (c ++ [n]) = true -> is_dir m c = true.
Proof.
  intros Hwf Hp. destruct (is_dir m c) eqn:E; [reflexivity|].
  unfold present in Hp. rewrite entry_at_snoc, wf_child in Hp by assumption. discriminate.
Qed.

Section Resolution.

Variable cwd : list string.

Lemma start_of_cons_empty (Y : list string) : Y <> [] -> start_of cwd ("" :: Y) = Some ([], Y).
Proof. destruct Y; [congruence|reflexivity]. Qed.

Lemma start_of_join q n st cs :
  start_of cwd q = Some (st, cs) ->
  start_of cwd (posix_join q [n]) = Some (st, trim cs ++ [n]).
Proof.
  rewrite posix_join_single. intros Hs.
  destruct q as [|x rest]; [discriminate|].
  destruct x as [|a x'].
  - destruct rest as [|y rest']; [discriminate|].
    simpl in Hs. injection Hs as <- <-.
    unfold trim. change (lastp ("" :: y :: rest')) with (lastp (y :: rest')).
    change (removelast ("" :: y :: rest')) with ("" :: removelast (y :: rest')).
    destruct (String.eqb (lastp (y :: rest')) ""); simpl app;
      apply start_of_cons_empty; destruct (_ ++ _) eqn:E; try congruence;
      apply app_eq_nil in E; destruct E; discriminate.
  - simpl in Hs. injection Hs as <- <-.
    unfold trim. destruct (String.eqb (lastp (String a x' :: rest)) "") eqn:E; [|reflexivity].
    destruct rest as [|y rest']; [discriminate|]. reflexivity.
Qed.

Lemma resolve_join m q n st cs :
  plainb n = true -> start_of cwd q = Some (st, cs) ->
  resolve cwd m (posix_join q [n]) =
  match walk m st cs with
  | inr c => match dir_check m c with inr _ => inr (c ++ [n]) | inl e => inl e end
  | inl e => inl e
  end.
Proof.
  intros Hn Hs. unfold resolve. rewrite (start_of_join _ _ _ _ Hs). apply walk_jp; exact Hn.
Qed.

Lemma exists_join m q n st cs c :
  wf m -> plainb n = true -> start_of cwd q = Some (st, cs) -> walk m st cs = inr c ->
  exists_b cwd m (posix_join q [n]) = present m (c ++ [n]).
Proof.
  intros Hwf Hn Hs Hw. unfold exists_b. rewrite (resolve_join m q n st cs Hn Hs), Hw.
  unfold dir_check. destruct (entry_at m c) as [[]|] eqn:E; [reflexivity| |];
    unfold present; rewrite entry_at_snoc, wf_child; try reflexivity; try assumption;
    unfold is_dir; rewrite E; reflexivity.
Qed.

End Resolution.

Lemma plainb_dots n : plainb n = true -> String.eqb n "." = false /\ String.eqb n ".." = false.
Proof.
  unfold plainb. destruct (String.eqb n ""), (String.eqb n "."), (String.eqb n ".."); simpl; auto.
Qed.

Lemma trim_head x rest : String.eqb x "" = false -> exists U, trim (x :: rest) = x :: U.
Proof.
  intros Hx. unfold trim. destruct (String.eqb (lastp (x :: rest)) "") eqn:E.
  - destruct rest as [|y rest']; [unfold lastp in E; simpl in E; congruence|]. eexists; reflexivity.
  - eexists; reflexivity.
Qed.

Lemma trim_cons_empty y rest : trim ("" :: y :: rest) = "" :: trim (y :: rest).
Proof.
  unfold trim. change (lastp ("" :: y :: rest)) with (lastp (y :: rest)).
  destruct (String.eqb (lastp (y :: rest)) ""); reflexivity.
Qed.

Lemma trim_snoc cs n : String.eqb n "" = false -> trim (cs ++ [n]) = cs ++ [n].
Proof. intros H. unfold trim. rewrite lastp_snoc, H. reflexivity. Qed.

Lemma dir_mono_insert m k e :
  m !! k = None ->
  forall l, entry_at m l = Some Dir -> entry_at (<[k := e]> m) l = Some Dir.
Proof.
  intros Hk l Hl. destruct l as [|x l]; [reflexivity|]. unfold entry_at in *.
  rewrite lookup_insert_ne; [exact Hl|]. intros E. rewrite E in Hk. congruence.
Qed.

Lemma is_dir_present m c : is_dir m c = true -> present m c = true.
Proof. unfold is_dir, present. destruct (entry_at m c) as [[]|]; congruence. Qed.

Section Creation.

Variable cwd : list string.

Lemma start_of_trim q n st cs :
  start_of cwd q = Some (st, cs) ->
  start_of cwd (trim q ++ [n]) = Some (st, trim cs ++ [n]).
Proof. rewrite <- posix_join_single. apply start_of_join. Qed.

(** [os.path.split] of [os.path.join(q, n)] gives a head that exists. *)
Lemma split_join_head m q n st cs c :
  plainb n = true -> start_of cwd q = Some (st, cs) -> walk m st cs = inr c ->
  present m c = true ->
  let '(h, t) := posix_split (posix_join q [n]) in
  t = n /\ nonempty_path h = true /\ exists_b cwd m h = true.
Proof.
  intros Hn Hs Hw Hp. rewrite posix_join_single. unfold posix_split.
  rewrite lastp_snoc, removelast_snoc. split; [reflexivity|].
  change (forallb (String.eqb "")) with all_empty.
  destruct q as [|x rest]; [discriminate|]. destruct x as [|a x'].
  - destruct rest as [|y rest']; [discriminate|].
    simpl in Hs. injection Hs as <- <-.
    rewrite trim_cons_empty. set (T := trim (y :: rest')).
    change (all_empty ("" :: T)) with (all_empty T).
    destruct (all_empty T) eqn:HT.
    + split; [destruct T; reflexivity|]. unfold exists_b, resolve.
      change (("" :: T) ++ [""]) with ("" :: (T ++ [""])).
      rewrite start_of_cons_empty by (destruct T; discriminate).
      rewrite walk_all_empty; [reflexivity| |reflexivity].
      rewrite all_empty_app, HT. reflexivity.
    + rewrite strip_cons by (right; exact HT).
      pose proof (strip_not_empty T HT) as HS.
      assert (Hne : strip_trailing T <> []) by (intros E; rewrite E in HS; discriminate).
      split; [destruct (strip_trailing T); [congruence|reflexivity]|].
      unfold exists_b, resolve. rewrite start_of_cons_empty by exact Hne.
      rewrite (walk_strip _ _ _ c); [exact Hp|]. apply walk_trim. exact Hw.
  - simpl in Hs. injection Hs as <- <-.
    destruct (trim_head (String a x') rest eq_refl) as [U HU].
    rewrite HU. simpl all_empty. rewrite strip_cons by (left; reflexivity).
    split; [reflexivity|].
    unfold exists_b, resolve. simpl start_of.
    rewrite <- strip_cons by (left; reflexivity). rewrite <- HU.
    rewrite (walk_strip _ _ _ c); [exact Hp|]. apply walk_trim. exact Hw.
Qed.

Lemma makedirs_join s q n st cs c :
  plainb n = true -> start_of cwd q = Some (st, cs) -> walk (fsys s) st cs = inr c ->
  present (fsys s) c = true ->
  os_makedirs cwd (posix_join q [n]) s = os_mkdir cwd (posix_join q [n]) s.
Proof.
  intros Hn Hs Hw Hp. unfold os_makedirs.
  pose proof (split_join_head (fsys s) q n st cs c Hn Hs Hw Hp) as H.
  destruct (posix_split (posix_join q [n])) as [h t] eqn:Hsp.
  destruct H as [-> [Hne Hex]].
  assert (Hl : List.length (posix_join q [n]) = S (List.length (trim q))).
  { rewrite posix_join_single, length_app. simpl. lia. }
  rewrite Hl. cbn [makedirs_fuel]. rewrite Hsp, (plainb_nonempty n Hn), Hne. simpl.
  unfold_monad. unfold os_path_exists, read_fs. rewrite (plainb_nonempty n Hn). simpl. rewrite Hex. reflexivity.
Qed.

Lemma mkdir_join s q n st cs c :
  plainb n = true -> start_of cwd q = Some (st, cs) -> walk (fsys s) st cs = inr c ->
  present (fsys s) c = true -> present (fsys s) (c ++ [n]) = false ->
  os_mkdir cwd (posix_join q [n]) s =
  if is_dir (fsys s) c then Ok tt (mkState (<[c ++ [n] := Dir]> (fsys s)) (out s))
  else Exc ENOTDIR s.
Proof.
  intros Hn Hs Hw Hp Hnp. unfold os_mkdir. rewrite posix_join_single.
  rewrite strip_snoc by exact (plainb_nonempty n Hn).
  assert (Hne : trim q ++ [n] <> []) by (intros E; apply app_eq_nil in E; destruct E; discriminate).
  destruct (trim q ++ [n]) as [|y ys] eqn:Ey; [congruence|]. rewrite <- Ey.
  unfold resolve_parent. rewrite (start_of_trim q n st cs Hs), removelast_snoc, lastp_snoc.
  rewrite (walk_trim _ _ _ _ Hw).
  destruct (plainb_dots n Hn) as [H1 H2].
  unfold dir_check, is_dir, present in *.
  destruct (entry_at (fsys s) c) as [[]|]; [|reflexivity|discriminate].
  rewrite H1, H2, Hnp. reflexivity.
Qed.

Lemma open_join m o q n st cs c :
  wf m -> plainb n = true -> start_of cwd q = Some (st, cs) -> walk m st cs = inr c ->
  is_dir m c = true -> m !! (c ++ [n]) = None ->
  open_w cwd (posix_join (posix_join q [n]) ["__init__.py"]) (mkState (<[c ++ [n] := Dir]> m) o) =
  Ok tt (mkState (<[c ++ [n; "__init__.py"] := File ""]> (<[c ++ [n] := Dir]> m)) o).
Proof.
  intros Hwf Hn Hs Hw Hd Hab.
  pose proof (start_of_join cwd (posix_join q [n]) "__init__.py" st (trim cs ++ [n]) (start_of_join cwd q n st cs Hs)) as Hs2.
  rewrite trim_snoc in Hs2 by exact (plainb_nonempty n Hn).
  unfold open_w, resolve_parent. simpl fsys. rewrite Hs2, removelast_snoc, lastp_snoc.
  set (m1 := <[c ++ [n] := Dir]> m).
  assert (Hmono := dir_mono_insert m (c ++ [n]) Dir Hab).
  rewrite (walk_jp m1 st cs n Hn).
  rewrite (walk_mono m m1 st cs c Hmono Hw).
  assert (Hc : entry_at m c = Some Dir) by (unfold is_dir in Hd; destruct (entry_at m c) as [[]|]; congruence).
  assert (Hc1 : entry_at m1 c = Some Dir) by (apply Hmono; exact Hc).
  unfold dir_check at 1. rewrite Hc1.
  unfold dir_check. unfold m1. rewrite entry_at_snoc, lookup_insert_eq. simpl.
  rewrite entry_at_snoc, lookup_insert_ne.
  2:{ intros E. apply (f_equal (@List.length string)) in E. rewrite !length_app in E. simpl in E. lia. }
  rewrite (wf_child m (c ++ [n]) "__init__.py" Hwf).
  2:{ unfold is_dir. rewrite entry_at_snoc, Hab. reflexivity. }
  rewrite <- app_assoc. reflexivity.
Qed.

(** [create_folder_with_init(os.path.join(q, n))] where [q] resolves to
    an existing location [c]. *)
Lemma cfwi_join m o q n st cs c :
  wf m -> plainb n = true -> start_of cwd q = Some (st, cs) -> walk m st cs = inr c ->
  present m c = true ->
  create_folder_with_init cwd (posix_join q [n]) (mkState m o) =
  if present m (c ++ [n]) then Ok tt (mkState m o)
  else if is_dir m c then
    Ok tt (mkState (<[c ++ [n; "__init__.py"] := File ""]> (<[c ++ [n] := Dir]> m))
             (o ++ [SUCCESS ("Created " ++ render (posix_join q [n]))]))
  else Exc ENOTDIR (mkState m o).
Proof.
  intros Hwf Hn Hs Hw Hp. unfold create_folder_with_init. unfold_monad.
  unfold os_path_exists, read_fs. cbn [fsys out].
  rewrite (exists_join cwd m q n st cs c Hwf Hn Hs Hw).
  destruct (present m (c ++ [n])) eqn:Hcn; [reflexivity|].
  rewrite (makedirs_join (mkState m o) q n st cs c Hn Hs Hw Hp).
  rewrite (mkdir_join (mkState m o) q n st cs c Hn Hs Hw Hp Hcn). cbn [fsys out].
  destruct (is_dir m c) eqn:Hd; [|reflexivity].
  assert (Hab : m !! (c ++ [n]) = None).
  { unfold present in Hcn. rewrite entry_at_snoc in Hcn. destruct (m !! (c ++ [n])); congruence. }
  rewrite (open_join m o q n st cs c Hwf Hn Hs Hw Hd Hab). reflexivity.
Qed.

End Creation.

(** ** The abstract steps *)

Lemma mfor_map {A B} (g : A -> B) (xs : list A) (f : B -> M unit) s :
  mfor (map g xs) f s = mfor xs (fun x => f (g x)) s.
Proof.
  revert s. induction xs as [|x xs IH]; intros s; simpl; unfold_monad; [reflexivity|].
  destruct (f (g x) s) as [[] s'|e s']; [apply IH|reflexivity].
Qed.

Lemma op_path_snoc q rel x : op_path q (rel ++ [x]) = posix_join (op_path q rel) [x].
Proof. unfold op_path, posix_join_many. rewrite map_app, fold_left_app. reflexivity. Qed.

(** What an [Ok] step does to the filesystem. *)
Lemma aop_ok_shape q B o s s' :
  aop q B o s = Ok tt s' ->
  fsys s' = fsys s \/
  (exists d c, o = RemoveOp d /\ entry_at (fsys s) (B ++ [d]) = Some (File c) /\
               fsys s' = delete (B ++ [d]) (fsys s)) \/
  (exists rel c n, o = CreateOp rel /\ c = B ++ removelast rel /\ n = lastp rel /\
     present (fsys s) (c ++ [n]) = false /\ is_dir (fsys s) c = true /\
     fsys s' = <[c ++ [n; "__init__.py"] := File ""]> (<[c ++ [n] := Dir]> (fsys s))).
Proof.
  intros H. destruct o as [d|rel]; simpl in H.
  - destruct (entry_at (fsys s) (B ++ [d])) as [[|c]|] eqn:E; inversion H; subst; simpl.
    + right; left. exists d, c. auto.
    + left; reflexivity.
  - destruct (present (fsys s) ((B ++ removelast rel) ++ [lastp rel])) eqn:Hp;
      [inversion H; subst; left; reflexivity|].
    destruct (is_dir (fsys s) (B ++ removelast rel)) eqn:Hd; [|discriminate].
    inversion H; subst. right; right. exists rel, (B ++ removelast rel), (lastp rel). simpl. auto 10.
Qed.

Lemma aop_exc_state q B o s e s' : aop q B o s = Exc e s' -> s' = s.
Proof.
  destruct o as [d|rel]; simpl.
  - destruct (entry_at (fsys s) (B ++ [d])) as [[|c]|]; intros H; inversion H; reflexivity.
  - destruct (present _ _); [discriminate|]. destruct (is_dir _ _); [discriminate|].
    intros H; inversion H; reflexivity.
Qed.

Lemma dir_mono_delete_file m k c :
  entry_at m k = Some (File c) ->
  forall l, entry_at m l = Some Dir -> entry_at (delete k m) l = Some Dir.
Proof.
  intros Hk l Hl. destruct l as [|x l]; [reflexivity|]. unfold entry_at in *.
  destruct k as [|y k]; [discriminate|].
  rewrite lookup_delete_ne; [exact Hl|]. intros E. rewrite E in Hk. congruence.
Qed.

Lemma wf_delete_file m k c : wf m -> entry_at m k = Some (File c) -> wf (delete k m).
Proof.
  intros Hwf Hk j e Hj. destruct (decide (j = k)) as [->|Hne].
  - rewrite lookup_delete_eq in Hj. discriminate.
  - rewrite lookup_delete_ne in Hj by congruence. destruct (Hwf j e Hj) as [Hnil Hd].
    split; [exact Hnil|]. unfold is_dir in *.
    destruct (entry_at m (removelast j)) as [[]|] eqn:E; try discriminate.
    rewrite (dir_mono_delete_file m k c Hk _ E). reflexivity.
Qed.

Lemma wf_insert m k e :
  wf m -> k <> [] -> is_dir m (removelast k) = true -> m !! k = None ->
  wf (<[k := e]> m).
Proof.
  intros Hwf Hk Hd Hab j e' Hj.
  assert (Hmono := dir_mono_insert m k e Hab).
  destruct (decide (j = k)) as [->|Hne].
  - split; [exact Hk|]. unfold is_dir in *.
    destruct (entry_at m (removelast k)) as [[]|] eqn:E; try discriminate.
    rewrite (Hmono _ E). reflexivity.
  - rewrite lookup_insert_ne in Hj by congruence.
    destruct (Hwf j e' Hj) as [Hnil Hdj]. split; [exact Hnil|].
    unfold is_dir in *. destruct (entry_at m (removelast j)) as [[]|] eqn:E; try discriminate.
    rewrite (Hmono _ E). reflexivity.
Qed.

Lemma present_insert m k e l : present m l = true -> present (<[k := e]> m) l = true.
Proof.
  unfold present. destruct l as [|x l]; [reflexivity|]. simpl.
  destruct (decide (k = x :: l)) as [<-|Hne].
  - rewrite lookup_insert_eq. reflexivity.
  - rewrite lookup_insert_ne by exact Hne. tauto.
Qed.

Lemma init_key (c : list string) n : c ++ [n; "__init__.py"] = (c ++ [n]) ++ ["__init__.py"].
Proof. rewrite <- app_assoc. reflexivity. Qed.

Lemma snoc_neq (c : list string) n : c ++ [n] <> c.
Proof.
  intros E. apply (f_equal (@List.length string)) in E. rewrite length_app in E. simpl in E. lia.
Qed.

(** A creation step, spelled out on the map. *)
Lemma create_facts m c n :
  wf m -> present m (c ++ [n]) = false -> is_dir m c = true ->
  let m1 := <[c ++ [n] := Dir]> m in
  let m2 := <[c ++ [n; "__init__.py"] := File ""]> m1 in
  wf m2 /\ m !! (c ++ [n]) = None /\ m1 !! (c ++ [n; "__init__.py"]) = None /\
  (forall l, entry_at m l = Some Dir -> entry_at m2 l = Some Dir) /\
  (forall l, present m l = true -> present m2 l = true).
Proof.
  intros Hwf Hp Hd m1 m2.
  assert (Hab : m !! (c ++ [n]) = None).
  { unfold present in Hp. rewrite entry_at_snoc in Hp. destruct (m !! _); congruence. }
  assert (Hab2 : m1 !! (c ++ [n; "__init__.py"]) = None).
  { unfold m1. rewrite init_key, lookup_insert_ne by (apply not_eq_sym, snoc_neq).
    apply wf_child_absent; assumption. }
  assert (Hwf1 : wf m1).
  { apply wf_insert; [exact Hwf| |rewrite removelast_snoc; exact Hd|exact Hab].
    intros E. apply app_eq_nil in E. destruct E; discriminate. }
  split; [|split; [exact Hab|split; [exact Hab2|split]]].
  - apply wf_insert; [exact Hwf1| | |exact Hab2].
    + intros E. apply app_eq_nil in E. destruct E; discriminate.
    + rewrite init_key, removelast_snoc. unfold is_dir, m1.
      rewrite entry_at_snoc, lookup_insert_eq. reflexivity.
  - intros l Hl. apply (dir_mono_insert m1 _ _ Hab2), (dir_mono_insert m _ _ Hab), Hl.
  - intros l Hl. apply present_insert, present_insert, Hl.
Qed.

Lemma delete_facts m k c :
  wf m -> entry_at m k = Some (File c) ->
  wf (delete k m) /\ (forall l, entry_at m l = Some Dir -> entry_at (delete k m) l = Some Dir).
Proof. intros Hwf Hk. split; [eapply wf_delete_file; eauto|exact (dir_mono_delete_file m k c Hk)]. Qed.

Lemma aop_inv cwd q B o s s' :
  base_inv cwd q B s -> aop q B o s = Ok tt s' -> base_inv cwd q B s'.
Proof.
  intros [Hwf [Hp [st [cs [Hs Hw]]]]] H. unfold base_inv.
  destruct (aop_ok_shape q B o s s' H) as [E|[[d [c [-> [Hk E]]]]|[rel [c [n [-> [-> [-> [Hn [Hd E]]]]]]]]]].
  - rewrite E. eauto 6.
  - destruct (delete_facts _ _ _ Hwf Hk) as [Hwf' Hmono]. rewrite E.
    split; [exact Hwf'|split].
    + unfold is_dir, present in *. destruct B as [|x B']; [reflexivity|].
      cbn [entry_at] in *. rewrite lookup_delete_ne; [exact Hp|].
      exact (snoc_neq (x :: B') d).
    + exists st, cs. split; [exact Hs|]. exact (walk_mono _ _ _ _ _ Hmono Hw).
  - destruct (create_facts _ _ _ Hwf Hn Hd) as [Hwf' [_ [_ [Hmono Hpres]]]].
    rewrite E. split; [exact Hwf'|split; [apply Hpres, Hp|]].
    exists st, cs. split; [exact Hs|]. exact (walk_mono _ _ _ _ _ Hmono Hw).
Qed.

Lemma aop_exc_inv cwd q B o s e s' :
  base_inv cwd q B s -> aop q B o s = Exc e s' -> base_inv cwd q B s'.
Proof. intros Hi H. rewrite (aop_exc_state _ _ _ _ _ _ H). exact Hi. Qed.

Lemma mfor_aop_inv cwd q B ops s :
  base_inv cwd q B s -> base_inv cwd q B (res_state (mfor ops (aop q B) s)).
Proof.
  apply mfor_inv. intros o s0 _ Hi. destruct (aop q B o s0) as [[] s1|e s1] eqn:E; simpl.
  - exact (aop_inv _ _ _ _ _ _ Hi E).
  - exact (aop_exc_inv _ _ _ _ _ _ _ Hi E).
Qed.

Section Refinement.

Variable cwd : list string.

(** [os.path.join(base_dir, *rel)] resolves to [B ++ rel] once that exists. *)
Lemma op_path_walk m q st cs B r :
  wf m -> start_of cwd q = Some (st, cs) -> walk m st cs = inr B ->
  forallb plainb r = true -> present m (B ++ r) = true ->
  exists cs', start_of cwd (op_path q r) = Some (st, cs') /\ walk m st cs' = inr (B ++ r).
Proof.
  intros Hwf Hs Hw. induction r as [|x r IH] using rev_ind; intros Hr Hp.
  - exists cs. rewrite app_nil_r. auto.
  - rewrite forallb_app in Hr. apply andb_prop in Hr as [Hr Hx]. simpl in Hx.
    rewrite andb_true_r in Hx.
    rewrite app_assoc in Hp. pose proof (present_child_dir m _ _ Hwf Hp) as Hd.
    destruct (IH Hr (is_dir_present _ _ Hd)) as [cs' [Hs' Hw']].
    exists (trim cs' ++ [x]). rewrite op_path_snoc.
    split; [exact (start_of_join cwd _ x _ _ Hs')|].
    rewrite (walk_jp m st cs' x Hx), Hw'. unfold dir_check, is_dir in *.
    destruct (entry_at m (B ++ r)) as [[]|]; try discriminate. rewrite app_assoc. reflexivity.
Qed.

(** A call of [create_folder_with_init] is the creation step. *)
Lemma cfwi_aop m o q st cs B rel :
  wf m -> start_of cwd q = Some (st, cs) -> walk m st cs = inr B ->
  forallb plainb rel = true -> rel <> [] -> present m (B ++ removelast rel) = true ->
  create_folder_with_init cwd (op_path q rel) (mkState m o) = aop q B (CreateOp rel) (mkState m o).
Proof.
  intros Hwf Hs Hw Hr Hne.
  destruct (exists_last Hne) as [r [n ->]]. rewrite removelast_snoc. intros Hp.
  rewrite forallb_app in Hr. apply andb_prop in Hr as [Hr Hn]. simpl in Hn.
  rewrite andb_true_r in Hn.
  destruct (op_path_walk m q st cs B r Hwf Hs Hw Hr Hp) as [cs' [Hs' Hw']].
  rewrite op_path_snoc. rewrite (cfwi_join cwd m o _ n st cs' (B ++ r) Hwf Hn Hs' Hw' Hp).
  unfold aop. cbn [fsys out]. rewrite removelast_snoc, lastp_snoc, op_path_snoc. reflexivity.
Qed.

(** The loop of [remove_default_files] is the sequence of removal steps. *)
Lemma remove_refines q B s :
  base_inv cwd q B s ->
  remove_default_files cwd q s = mfor (map RemoveOp default_files) (aop q B) s.
Proof.
  intros Hinv. unfold remove_default_files. rewrite mfor_map.
  apply (mfor_ext_inv (base_inv cwd q B)); [| intros; eapply aop_inv; eauto | exact Hinv].
  intros d [m o] Hin [Hwf [HB [st [cs [Hs Hw]]]]]. cbn [fsys] in *.
  assert (Hd : plainb d = true)
    by (simpl in Hin; repeat destruct Hin as [<-|Hin]; try reflexivity; contradiction).
  unfold_monad. unfold os_path_exists, read_fs. cbn [fsys out].
  rewrite (exists_join cwd m q d st cs B Hwf Hd Hs Hw).
  unfold aop. cbn [fsys out]. unfold present. rewrite !entry_at_snoc.
  destruct (m !! (B ++ [d])) as [[|c]|] eqn:E; [| |reflexivity];
    (assert (HBd : is_dir m B = true)
      by (apply (present_child_dir m B d Hwf); unfold present; rewrite entry_at_snoc, E; reflexivity));
    unfold os_remove; cbn [fsys out];
    rewrite (resolve_join cwd m q d st cs Hd Hs), Hw;
    unfold dir_check, is_dir in *;
    (destruct (entry_at m B) as [[]|]; try discriminate);
    rewrite entry_at_snoc, E; reflexivity.
Qed.

End Refinement.

Lemma cons_ne_nil (x : string) l : x :: l <> [].
Proof. discriminate. Qed.

Lemma aop_create_present q B rel s s' l :
  aop q B (CreateOp rel) s = Ok tt s' -> present (fsys s) l = true -> present (fsys s') l = true.
Proof.
  intros H Hl. destruct (aop_ok_shape q B _ s s' H) as [E|[[d [c [Hd _]]]|[rel' [c [n [_ [_ [_ [_ [_ E]]]]]]]]]];
    [rewrite E; exact Hl|discriminate|].
  rewrite E. apply present_insert, present_insert, Hl.
Qed.

Lemma aop_create_done q B rel s s' :
  rel <> [] -> aop q B (CreateOp rel) s = Ok tt s' -> present (fsys s') (B ++ rel) = true.
Proof.
  intros Hne H. rewrite (snoc_decomp rel Hne), app_assoc. simpl in H.
  destruct (present (fsys s) ((B ++ removelast rel) ++ [lastp rel])) eqn:Hp.
  - inversion H; subst. exact Hp.
  - destruct (is_dir _ _); [|discriminate]. inversion H; subst. cbn [fsys].
    apply present_insert. unfold present. rewrite entry_at_snoc, lookup_insert_eq. reflexivity.
Qed.

(** Running creation steps only: every present location stays present. *)
Lemma mfor_create_present q B ops s s' l :
  Forall (fun o => exists rel, o = CreateOp rel) ops ->
  mfor ops (aop q B) s = Ok tt s' -> present (fsys s) l = true -> present (fsys s') l = true.
Proof.
  intros Hall. revert s. induction Hall as [|o ops [rel ->] _ IH]; intros s H Hl.
  - inversion H; subst. exact Hl.
  - simpl in H. unfold_monad. destruct (aop q B (CreateOp rel) s) as [[] s1|e s1] eqn:E; [|discriminate].
    apply (IH s1 H). exact (aop_create_present _ _ _ _ _ _ E Hl).
Qed.

Section Refinement2.

Variable cwd : list string.

(** The loops of [create_folder_structure] are the sequence of creation steps. *)
Lemma cfs_refines q B tbl s :
  Forall (fun fs => plainb (fst fs) = true /\ forallb plainb (snd fs) = true) tbl ->
  base_inv cwd q B s ->
  create_folder_structure cwd q tbl s = mfor (flatten_structure tbl) (aop q B) s.
Proof.
  intros Hall. revert s. induction Hall as [|[f subs] tbl [Hf Hsubs] _ IH]; intros s Hinv;
    [reflexivity|].
  unfold create_folder_structure in *. cbn [mfor flatten_structure map List.concat].
  cbn [fst snd] in *. simpl app. cbn [mfor]. unfold_monad.
  destruct s as [m o]. pose proof Hinv as [Hwf [HB [st [cs [Hs Hw]]]]]. cbn [fsys] in *.
  assert (Hf' : forallb plainb [f] = true) by (simpl; rewrite Hf; reflexivity).
  change (posix_join q [f]) with (op_path q [f]).
  rewrite (cfwi_aop cwd m o q st cs B [f] Hwf Hs Hw Hf' (cons_ne_nil f [])) by (rewrite app_nil_r; exact HB).
  destruct (aop q B (CreateOp [f]) (mkState m o)) as [[] s1|e s1] eqn:E1; [|reflexivity].
  pose proof (aop_inv _ _ _ _ _ _ Hinv E1) as Hinv1.
  pose proof (aop_create_done _ _ _ _ _ (cons_ne_nil f []) E1) as Hf1.
  rewrite mfor_app.
  assert (Hsub : mfor subs (fun subfolder => create_folder_with_init cwd (posix_join (op_path q [f]) [subfolder])) s1
                 = mfor (map (fun x => CreateOp [f; x]) subs) (aop q B) s1).
  { rewrite mfor_map.
    apply (mfor_ext_inv (fun s => base_inv cwd q B s /\ present (fsys s) (B ++ [f]) = true)).
    - intros x [m2 o2] Hx [[Hwf2 [HB2 [st2 [cs2 [Hs2 Hw2]]]]] Hp2]. cbn [fsys] in *.
      rewrite <- op_path_snoc. apply (cfwi_aop cwd m2 o2 q st2 cs2 B [f; x] Hwf2 Hs2 Hw2).
      + simpl. rewrite Hf. simpl. rewrite forallb_forall in Hsubs. rewrite (Hsubs x Hx). reflexivity.
      + discriminate.
      + exact Hp2.
    - intros x s2 s3 _ [Hi2 Hp2] E. split; [exact (aop_inv _ _ _ _ _ _ Hi2 E)|].
      exact (aop_create_present _ _ _ _ _ _ E Hp2).
    - split; assumption. }
  rewrite Hsub.
  pose proof (mfor_aop_inv cwd q B (map (fun x => CreateOp [f; x]) subs) s1 Hinv1) as Hinv2.
  destruct (mfor (map (fun x => CreateOp [f; x]) subs) (aop q B) s1) as [[] s2|e s2]; [|reflexivity].
  apply IH. exact Hinv2.
Qed.

End Refinement2.

Lemma structure_plain :
  Forall (fun fs => plainb (fst fs) = true /\ forallb plainb (snd fs) = true) structure.
Proof. repeat constructor. Qed.

Lemma structure_creates : Forall (fun o => exists rel, o = CreateOp rel) (flatten_structure structure).
Proof. cbn. repeat (constructor; [eexists; reflexivity|]). constructor. Qed.

(** After a run of creation steps, each location it creates is present. *)
Lemma mfor_create_done q B ops s s' rel :
  Forall (fun o => exists rel, o = CreateOp rel) ops ->
  mfor ops (aop q B) s = Ok tt s' -> In (CreateOp rel) ops -> rel <> [] ->
  present (fsys s') (B ++ rel) = true.
Proof.
  intros Hall. revert s. induction Hall as [|o ops [rel' ->] Hops IH]; intros s H Hin Hne;
    [contradiction|].
  simpl in H. unfold_monad. destruct (aop q B (CreateOp rel') s) as [[] s1|e s1] eqn:E; [|discriminate].
  destruct Hin as [Eo|Hin].
  - injection Eo as ->. apply (mfor_create_present q B ops s1 s' _ Hops H).
    exact (aop_create_done _ _ _ _ _ Hne E).
  - exact (IH s1 H Hin Hne).
Qed.

Section Handle.

Variable cwd : list string.

(** Once [base_dir] resolves to an existing location [B], [handle] is the
    fixed sequence of steps [code_ops] followed by the final message. *)
Lemma handle_exists app m o B :
  wf m -> is_dir m cwd = true -> resolve cwd m (base_path cwd app) = inr B -> present m B = true ->
  handle cwd app (mkState m o) =
  (mfor code_ops (aop (base_path cwd app) B) ;; emit (final_msg app)) (mkState m o).
Proof.
  intros Hwf Hcwd HR HB. unfold handle. unfold_monad. unfold os_getcwd. cbn [fsys]. rewrite Hcwd.
  fold (base_path cwd app). set (q := base_path cwd app) in *.
  unfold os_path_exists, read_fs. cbn [fsys].
  assert (Hex : exists_b cwd m q = true) by (unfold exists_b; rewrite HR; exact HB).
  rewrite Hex. cbn [negb]. cbv beta.
  unfold resolve in HR. destruct (start_of cwd q) as [[st cs]|] eqn:Hs; [|discriminate].
  assert (Hinv : base_inv cwd q B (mkState m o)) by (split; [exact Hwf|split; [exact HB|exists st, cs; auto]]).
  rewrite (remove_refines cwd q B _ Hinv).
  unfold code_ops. rewrite mfor_app.
  pose proof (mfor_aop_inv cwd q B (map RemoveOp default_files) _ Hinv) as Hinv1.
  destruct (mfor (map RemoveOp default_files) (aop q B) (mkState m o)) as [[] s1|e s1];
    [|reflexivity]. cbn [res_state] in Hinv1.
  rewrite (cfs_refines cwd q B structure s1 structure_plain Hinv1), mfor_app.
  pose proof (mfor_aop_inv cwd q B (flatten_structure structure) _ Hinv1) as Hinv2.
  destruct (mfor (flatten_structure structure) (aop q B) s1) as [[] s2|e s2] eqn:E2;
    [|reflexivity]. cbn [res_state] in Hinv2.
  destruct s2 as [m2 o2]. destruct Hinv2 as [Hwf2 [HB2 [st2 [cs2 [Hs2 Hw2]]]]]. cbn [fsys] in *.
  change (posix_join_many q [["models"]; ["helper"]; ["enums"]]) with (op_path q ["models"; "helper"; "enums"]).
  rewrite (cfwi_aop cwd m2 o2 q st2 cs2 B ["models"; "helper"; "enums"] Hwf2 Hs2 Hw2 eq_refl (cons_ne_nil _ _)).
  - cbn [mfor]. unfold_monad. destruct (aop q B _ _) as [[] s3|e s3]; reflexivity.
  - exact (mfor_create_done q B _ s1 (mkState m2 o2) ["models"; "helper"] structure_creates E2
             ltac:(cbn; tauto) (cons_ne_nil _ _)).
Qed.

End Handle.

(** ** Properties of the step list [code_ops] *)

Lemma code_ops_ok : forallb op_ok code_ops = true.
Proof. vm_compute. reflexivity. Qed.

Lemma create_ok_spec rel :
  create_ok rel = true ->
  rel <> [] /\ forallb plainb rel = true /\ (forall d, d ∈ default_files -> rel <> [d]) /\
  "__init__.py" ∉ rel.
Proof.
  unfold create_ok. intros H.
  apply andb_prop in H as [H H4]. apply andb_prop in H as [H H3]. apply andb_prop in H as [H1 H2].
  apply negb_true_iff in H1, H3, H4. apply bool_decide_eq_false in H1, H4.
  split; [exact H1|split; [exact H2|split; [|exact H4]]].
  intros d Hd E.
  assert (existsb (fun d0 => bool_decide (rel = [d0])) default_files = true).
  { apply existsb_exists. exists d. split; [apply list_elem_of_In; exact Hd|]. apply bool_decide_eq_true. exact E. }
  congruence.
Qed.

Lemma remove_ok_spec d : op_ok (RemoveOp d) = true -> d ∈ default_files /\ plainb d = true.
Proof. simpl. intros H. apply andb_prop in H as [H1 H2]. apply bool_decide_eq_true in H1. auto. Qed.

Lemma app_inj_l (B r1 r2 : list string) : B ++ r1 = B ++ r2 -> r1 = r2.
Proof. apply app_inv_head. Qed.

Lemma create_key rel : rel <> [] -> forall B : list string, (B ++ removelast rel) ++ [lastp rel] = B ++ rel.
Proof. intros Hne B. rewrite <- app_assoc, <- snoc_decomp by exact Hne. reflexivity. Qed.

(** A creation step on [rel], for a non-empty [rel]. *)
Lemma aop_create q B rel m o :
  rel <> [] ->
  aop q B (CreateOp rel) (mkState m o) =
  if present m (B ++ rel) then Ok tt (mkState m o)
  else if is_dir m (B ++ removelast rel) then
    Ok tt (mkState (<[B ++ rel ++ ["__init__.py"] := File ""]> (<[B ++ rel := Dir]> m))
             (o ++ [SUCCESS ("Created " ++ render (op_path q rel))]))
  else Exc ENOTDIR (mkState m o).
Proof.
  intros Hne. unfold aop. cbn [fsys out]. rewrite (create_key rel Hne B).
  replace ((B ++ removelast rel) ++ [lastp rel; "__init__.py"]) with (B ++ rel ++ ["__init__.py"]);
    [reflexivity|].
  rewrite init_key, create_key by exact Hne. rewrite app_assoc. reflexivity.
Qed.

(** Every [Ok] step keeps existing directories. *)
Lemma aop_dir_mono cwd q B o s s' l :
  base_inv cwd q B s -> aop q B o s = Ok tt s' ->
  entry_at (fsys s) l = Some Dir -> entry_at (fsys s') l = Some Dir.
Proof.
  intros [Hwf _] H Hl.
  destruct (aop_ok_shape q B o s s' H) as [E|[[d [c [_ [Hk E]]]]|[rel [c [n [_ [_ [_ [Hn [Hd E]]]]]]]]]];
    rewrite E.
  - exact Hl.
  - exact (dir_mono_delete_file _ _ _ Hk l Hl).
  - destruct (create_facts _ _ _ Hwf Hn Hd) as [_ [_ [_ [Hmono _]]]]. exact (Hmono l Hl).
Qed.

(** ** A second run *)

Lemma entry_at_nonnil m k : k <> [] -> entry_at m k = m !! k.
Proof. destruct k; [congruence|reflexivity]. Qed.

Lemma aop_settled_noop q B o s :
  op_ok o = true -> settled B o (fsys s) -> aop q B o s = Ok tt s.
Proof.
  destruct s as [m o']. destruct o as [d|rel]; simpl settled; intros Hok Hs.
  - unfold aop. cbn [fsys]. rewrite Hs. reflexivity.
  - destruct (create_ok_spec rel Hok) as [Hne _].
    rewrite (aop_create q B rel m o' Hne), Hs. reflexivity.
Qed.

Lemma aop_settles q B o s s' :
  op_ok o = true -> aop q B o s = Ok tt s' -> settled B o (fsys s').
Proof.
  destruct s as [m o']. destruct o as [d|rel]; simpl settled; intros Hok H.
  - unfold aop in H. cbn [fsys out] in H.
    destruct (entry_at m (B ++ [d])) as [[|c]|] eqn:E; inversion H; subst; cbn [fsys].
    + rewrite entry_at_snoc, lookup_delete_eq. reflexivity.
    + exact E.
  - destruct (create_ok_spec rel Hok) as [Hne _].
    exact (aop_create_done q B rel _ _ Hne H).
Qed.

Lemma aop_keeps_settled q B o o' s s' :
  op_ok o = true -> op_ok o' = true -> aop q B o' s = Ok tt s' ->
  settled B o (fsys s) -> settled B o (fsys s').
Proof.
  intros Hok Hok' H Hs.
  destruct (aop_ok_shape q B o' s s' H) as [E|[[d' [c [-> [Hk E]]]]|[rel' [c [n [-> [-> [-> [Hn [Hd E]]]]]]]]]];
    rewrite E; [exact Hs| |].
  - destruct o as [d|rel]; simpl in *.
    + rewrite entry_at_snoc, lookup_delete. rewrite entry_at_snoc in Hs. rewrite Hs.
      destruct (decide _); reflexivity.
    + destruct (create_ok_spec rel Hok) as [Hne [_ [Hnd _]]].
      destruct (remove_ok_spec d' Hok') as [Hd' _].
      assert (HBr : B ++ rel <> []) by (intros E0; apply app_eq_nil in E0; tauto).
      unfold present in *. rewrite entry_at_nonnil in * by exact HBr.
      rewrite lookup_delete_ne; [exact Hs|].
      intros Ek. apply app_inj_l in Ek. exact (Hnd d' Hd' (eq_sym Ek)).
  - destruct (create_ok_spec rel' Hok') as [Hne' [_ [Hnd' _]]].
    rewrite (create_key rel' Hne') in *. rewrite init_key, (create_key rel' Hne').
    destruct o as [d|rel]; simpl in *.
    + destruct (remove_ok_spec d Hok) as [Hd0 _].
      rewrite entry_at_snoc in *. rewrite !lookup_insert_ne; [exact Hs| |].
      * intros Ek. apply app_inj_l in Ek. exact (Hnd' d Hd0 Ek).
      * intros Ek. rewrite <- app_assoc in Ek. apply app_inj_l in Ek.
        apply (f_equal (@List.length string)) in Ek. rewrite length_app in Ek. simpl in Ek.
        destruct rel'; [congruence|simpl in Ek; lia].
    + apply present_insert, present_insert, Hs.
Qed.

Lemma mfor_keeps_settled q B o ops s s' :
  op_ok o = true -> forallb op_ok ops = true -> mfor ops (aop q B) s = Ok tt s' ->
  settled B o (fsys s) -> settled B o (fsys s').
Proof.
  intros Hok. revert s. induction ops as [|o' ops IH]; intros s Hops H Hs.
  - inversion H; subst. exact Hs.
  - simpl in Hops. apply andb_prop in Hops as [Hok' Hops].
    simpl in H. unfold_monad. destruct (aop q B o' s) as [[] s1|e s1] eqn:E; [|discriminate].
    exact (IH s1 Hops H (aop_keeps_settled q B o o' s s1 Hok Hok' E Hs)).
Qed.

(** Running the same steps again from where a successful run ended changes
    nothing, whatever the messages written so far. *)
Lemma mfor_idem q B ops s s' o' :
  forallb op_ok ops = true -> mfor ops (aop q B) s = Ok tt s' ->
  mfor ops (aop q B) (mkState (fsys s') o') = Ok tt (mkState (fsys s') o').
Proof.
  revert s. induction ops as [|o ops IH]; intros s Hops H; [reflexivity|].
  simpl in Hops. apply andb_prop in Hops as [Hok Hops].
  simpl in H. unfold_monad. destruct (aop q B o s) as [[] s1|e s1] eqn:E; [|discriminate].
  simpl. unfold_monad.
  rewrite aop_settled_noop; [exact (IH s1 Hops H)|exact Hok|].
  exact (mfor_keeps_settled q B o ops s1 s' Hok Hops H (aop_settles q B o s s1 Hok E)).
Qed.

(** ** A run from an empty directory *)

Lemma run_creates_snoc B prior rel m :
  run_creates B (prior ++ [rel]) m = ins B rel (run_creates B prior m).
Proof. unfold run_creates. rewrite fold_left_app. reflexivity. Qed.

Lemma ins_lookup B rel m r :
  ins B rel m !! (B ++ r) =
  if bool_decide (r = rel ++ ["__init__.py"]) then Some (File "")
  else if bool_decide (r = rel) then Some Dir else m !! (B ++ r).
Proof.
  unfold ins. rewrite !lookup_insert.
  case_decide as E1; [apply app_inj_l in E1; subst r; rewrite bool_decide_true; reflexivity|].
  case_decide as E2.
  - apply app_inj_l in E2. subst r.
    rewrite (bool_decide_false (rel = rel ++ ["__init__.py"])) by
      (intros E; exact (snoc_neq rel _ (eq_sym E))).
    rewrite bool_decide_true by reflexivity. reflexivity.
  - rewrite !bool_decide_false; [reflexivity| |]; intros ->; auto.
Qed.

Lemma run_creates_lookup B rels m r :
  run_creates B rels m !! (B ++ r) = tree_lookup rels r (m !! (B ++ r)).
Proof.
  revert m. induction rels as [|rel rs IH]; intros m; [reflexivity|].
  unfold run_creates in *. simpl. rewrite IH, ins_lookup. reflexivity.
Qed.

Lemma run_creates_other B rels m k :
  Forall (fun rel => rel <> []) rels -> (forall r, r <> [] -> k <> B ++ r) ->
  run_creates B rels m !! k = m !! k.
Proof.
  intros Hall Hk. revert m. induction Hall as [|rel rs Hne _ IH]; intros m; [reflexivity|].
  unfold run_creates in *. simpl. rewrite IH. unfold ins.
  rewrite !lookup_insert_ne; [reflexivity|apply not_eq_sym, Hk, Hne|].
  apply not_eq_sym. apply Hk. intros E. apply app_eq_nil in E. destruct E; discriminate.
Qed.

Section Fresh.

Variables (q : path) (B : list string) (m : fs).
Hypothesis Hempty : forall r, r <> [] -> m !! (B ++ r) = None.
Hypothesis HBdir : is_dir m B = true.

Lemma mfor_fresh rels prior o :
  Forall (fun rel => rel <> []) prior -> fresh_plan prior rels = true ->
  mfor (map CreateOp rels) (aop q B) (mkState (run_creates B prior m) o) =
  Ok tt (mkState (run_creates B (prior ++ rels) m) (o ++ map (created_msg q) rels)).
Proof.
  revert prior o. induction rels as [|rel rs IH]; intros prior o Hpr Hf.
  - simpl. rewrite !app_nil_r. reflexivity.
  - simpl in Hf. apply andb_prop in Hf as [Hf Hrest]. apply andb_prop in Hf as [Hf Hpar].
    apply andb_prop in Hf as [Hne Hnew].
    apply negb_true_iff, bool_decide_eq_false in Hne. apply bool_decide_eq_true in Hnew.
    set (m' := run_creates B prior m).
    assert (HBr : B ++ rel <> []) by (intros E; apply app_eq_nil in E; tauto).
    cbn [map mfor]. unfold_monad. rewrite (aop_create q B rel m' o Hne).
    assert (Hp : present m' (B ++ rel) = false).
    { unfold present. rewrite entry_at_nonnil by exact HBr. unfold m'.
      rewrite run_creates_lookup, Hempty, Hnew by exact Hne. reflexivity. }
    assert (Hd : is_dir m' (B ++ removelast rel) = true).
    { destruct (decide (removelast rel = [])) as [E|E].
      - rewrite E, app_nil_r. unfold is_dir in *. destruct B as [|x B'] eqn:EB; [reflexivity|].
        cbn [entry_at] in *. unfold m'. rewrite run_creates_other; [exact HBdir|exact Hpr|].
        intros r Hr Er. apply (snoc_neq [] "x"). apply (f_equal (@List.length string)) in Er.
        rewrite length_app in Er. destruct r; [congruence|simpl in Er; lia].
      - apply orb_prop in Hpar as [Hpar|Hpar]; apply bool_decide_eq_true in Hpar; [congruence|].
        unfold is_dir. rewrite entry_at_nonnil by (intros E'; apply app_eq_nil in E'; tauto).
        unfold m'. rewrite run_creates_lookup, Hempty, Hpar by exact E. reflexivity. }
    rewrite Hp, Hd.
    change (<[B ++ rel ++ ["__init__.py"] := File ""]> (<[B ++ rel := Dir]> m')) with (ins B rel m').
    unfold m'. rewrite <- run_creates_snoc.
    change (SUCCESS ("Created " ++ render (op_path q rel))) with (created_msg q rel).
    rewrite (IH (prior ++ [rel]) (o ++ [created_msg q rel])).
    + rewrite <- !app_assoc. reflexivity.
    + apply Forall_app; split; [exact Hpr|constructor; [exact Hne|constructor]].
    + exact Hrest.
Qed.

End Fresh.

Lemma tree_lookup_spec rels r dflt :
  Forall (fun rel => "__init__.py" ∉ rel) rels ->
  tree_lookup rels r dflt =
  if bool_decide (r ∈ rels) then Some Dir
  else if bool_decide (r <> [] /\ lastp r = "__init__.py" /\ removelast r ∈ rels) then Some (File "")
  else dflt.
Proof.
  assert (HX : r <> [] /\ lastp r = "__init__.py" -> "__init__.py" ∈ r).
  { intros [Hn Hl]. rewrite (snoc_decomp r Hn), Hl. apply elem_of_app. right. left. }
  intros Hall. revert dflt. induction Hall as [|rel rs Hrel Hrs IH]; intros dflt.
  - simpl. rewrite !bool_decide_false; [reflexivity|..]; set_solver.
  - simpl. rewrite IH.
    assert (HA : r ∈ rs -> ~ (r <> [] /\ lastp r = "__init__.py")).
    { intros Hin HXr. rewrite Forall_forall in Hrs. exact (Hrs r Hin (HX HXr)). }
    assert (HR : r = rel -> ~ (r <> [] /\ lastp r = "__init__.py")).
    { intros -> HXr. exact (Hrel (HX HXr)). }
    assert (Hsnoc : r = rel ++ ["__init__.py"] <-> r <> [] /\ lastp r = "__init__.py" /\ removelast r = rel).
    { split.
      - intros ->. split; [intros E; apply app_eq_nil in E; destruct E; discriminate|].
        rewrite lastp_snoc, removelast_snoc. auto.
      - intros [Hn [Hl Hr]]. rewrite (snoc_decomp r Hn), Hl, Hr. reflexivity. }
    rewrite (bool_decide_ext _ _ Hsnoc).
    rewrite (bool_decide_ext (r ∈ rel :: rs) (r = rel \/ r ∈ rs)) by apply elem_of_cons.
    rewrite (bool_decide_ext (r <> [] /\ lastp r = "__init__.py" /\ removelast r ∈ rel :: rs)
               (r <> [] /\ lastp r = "__init__.py" /\ (removelast r = rel \/ removelast r ∈ rs)))
      by (rewrite elem_of_cons; reflexivity).
    repeat case_bool_decide; first [reflexivity | exfalso; naive_solver].
Qed.

(** ** The layout and the order of the specification *)

(** ** [handle] by cases *)

Lemma code_ops_split : code_ops = map RemoveOp default_files ++ map CreateOp code_creations.
Proof. vm_compute. reflexivity. Qed.

Lemma code_creations_fresh : fresh_plan [] code_creations = true.
Proof. vm_compute. reflexivity. Qed.

Lemma code_creations_nonempty : Forall (fun rel => rel <> []) code_creations.
Proof. apply (bool_decide_unpack _). vm_compute. reflexivity. Qed.

Lemma code_creations_no_init : Forall (fun rel => "__init__.py" ∉ rel) code_creations.
Proof. apply (bool_decide_unpack _). vm_compute. reflexivity. Qed.

Lemma code_creations_perm : code_creations ≡ₚ scaffold_dirs.
Proof. apply (bool_decide_unpack _). vm_compute. reflexivity. Qed.

Lemma mfor_settled q B ops m o :
  (forall x, In x ops -> op_ok x = true /\ settled B x m) ->
  mfor ops (aop q B) (mkState m o) = Ok tt (mkState m o).
Proof.
  induction ops as [|x ops IH]; intros H; [reflexivity|]. simpl. unfold_monad.
  destruct (H x (or_introl eq_refl)) as [Hok Hs].
  rewrite (aop_settled_noop q B x (mkState m o) Hok Hs). apply IH. intros y Hy. apply H. right. exact Hy.
Qed.

Lemma exists_resolve cwd m p :
  exists_b cwd m p = true -> exists B, resolve cwd m p = inr B /\ present m B = true.
Proof. unfold exists_b. destruct (resolve cwd m p) as [e|B]; [discriminate|eauto]. Qed.

Section HandleCases.

Variable cwd : list string.

Lemma handle_nocwd app m o :
  is_dir m cwd = false -> handle cwd app (mkState m o) = Exc ENOENT (mkState m o).
Proof. intros H. unfold handle. unfold_monad. unfold os_getcwd. cbn [fsys]. rewrite H. reflexivity. Qed.

Lemma handle_missing app m o :
  is_dir m cwd = true -> exists_b cwd m (base_path cwd app) = false ->
  handle cwd app (mkState m o) =
  Ok tt (mkState m (o ++ [ERROR ("App '" ++ app ++ "' does not exist")])).
Proof.
  intros Hc Hx. unfold handle. unfold_monad. unfold os_getcwd. cbn [fsys]. rewrite Hc.
  fold (base_path cwd app). unfold os_path_exists, read_fs. cbn [fsys]. rewrite Hx. reflexivity.
Qed.

(** The three ways a run goes. *)
Lemma handle_cases app m o :
  wf m ->
  (is_dir m cwd = false /\ handle cwd app (mkState m o) = Exc ENOENT (mkState m o)) \/
  (is_dir m cwd = true /\ exists_b cwd m (base_path cwd app) = false /\
   handle cwd app (mkState m o) =
   Ok tt (mkState m (o ++ [ERROR ("App '" ++ app ++ "' does not exist")]))) \/
  (exists B, is_dir m cwd = true /\ resolve cwd m (base_path cwd app) = inr B /\
   present m B = true /\
   handle cwd app (mkState m o) =
   (mfor code_ops (aop (base_path cwd app) B) ;; emit (final_msg app)) (mkState m o)).
Proof.
  intros Hwf. destruct (is_dir m cwd) eqn:Hc; [|left; auto using handle_nocwd].
  right. destruct (exists_b cwd m (base_path cwd app)) eqn:Hx; [|left; auto using handle_missing].
  right. destruct (exists_resolve _ _ _ Hx) as [B [HR HB]].
  exists B. repeat split; auto. apply handle_exists; assumption.
Qed.

End HandleCases.

Lemma then_emit_fsys (c : M unit) x s :
  fsys (res_state ((c ;; emit x) s)) = fsys (res_state (c s)).
Proof. unfold_monad. destruct (c s); reflexivity. Qed.

Lemma base_inv_intro cwd q B m o :
  wf m -> resolve cwd m q = inr B -> present m B = true -> base_inv cwd q B (mkState m o).
Proof.
  intros Hwf HR HB. unfold resolve in HR. destruct (start_of cwd q) as [[st cs]|] eqn:Hs; [|discriminate].
  split; [exact Hwf|split; [exact HB|exists st, cs; auto]].
Qed.

(** An invariant of every step of [code_ops] holds of the state the steps end in. *)
Lemma code_run_inv cwd q B (P : state -> Prop) s :
  (forall o s s', op_ok o = true -> base_inv cwd q B s -> P s -> aop q B o s = Ok tt s' -> P s') ->
  base_inv cwd q B s -> P s -> P (res_state (mfor code_ops (aop q B) s)).
Proof.
  intros Hstep Hi Hp.
  apply (proj2 (mfor_inv (fun s => base_inv cwd q B s /\ P s) code_ops (aop q B)
                  ltac:(intros o s0 Hin [Hi0 Hp0]; pose proof code_ops_ok as Hok;
                        rewrite forallb_forall in Hok; specialize (Hok o Hin);
                        destruct (aop q B o s0) as [[] s1|e s1] eqn:E; simpl;
                        [exact (conj (aop_inv _ _ _ _ _ _ Hi0 E) (Hstep _ _ _ Hok Hi0 Hp0 E))
                        |rewrite (aop_exc_state _ _ _ _ _ _ E); auto])
                  s (conj Hi Hp))).
Qed.

(** ** Claims *)

(** C1: when the app directory [B] exists, is a directory and holds
    nothing, a run writes exactly the tree of the specification under it:
    every folder of the contract, an empty [__init__.py] in each, and no
    other entry; nothing outside [B] changes; the messages are one
    creation message per folder (in some order of the 24 folders) and the
    final message. *)
Theorem handle_empty_app_tree cwd app m o B :
  wf m -> is_dir m cwd = true -> resolve cwd m (base_path cwd app) = inr B ->
  is_dir m B = true -> (forall r, r <> [] -> m !! (B ++ r) = None) ->
  exists m' plan,
    handle cwd app (mkState m o) =
      Ok tt (mkState m' (o ++ map (created_msg (base_path cwd app)) plan ++ [final_msg app])) /\
    plan ≡ₚ scaffold_dirs /\
    (forall r, r <> [] -> m' !! (B ++ r) = scaffold_entry r) /\
    (forall k, (forall r, r <> [] -> k <> B ++ r) -> m' !! k = m !! k).
Proof.
  intros Hwf Hc HR HB Hempty. set (q := base_path cwd app).
  exists (run_creates B code_creations m), code_creations.
  split; [|split; [exact code_creations_perm|split]].
  - rewrite (handle_exists cwd app m o B Hwf Hc HR (is_dir_present _ _ HB)).
    unfold_monad. rewrite code_ops_split, mfor_app.
    rewrite mfor_settled.
    2:{ intros x Hx. apply in_map_iff in Hx as [d [<- Hd]].
        split; [simpl in Hd; repeat destruct Hd as [<-|Hd]; try reflexivity; contradiction|].
        simpl. rewrite entry_at_snoc. apply Hempty. discriminate. }
    change (mkState m o) with (mkState (run_creates B [] m) o).
    rewrite (mfor_fresh (base_path cwd app) B m Hempty HB code_creations [] o (List.Forall_nil _) code_creations_fresh).
    unfold emit. cbn [fsys out]. rewrite app_nil_l, <- app_assoc. reflexivity.
  - intros r Hr. rewrite run_creates_lookup, Hempty by exact Hr.
    rewrite (tree_lookup_spec _ _ _ code_creations_no_init). unfold scaffold_entry.
    assert (Hin : forall x, x ∈ code_creations <-> x ∈ scaffold_dirs)
      by (intros x; rewrite code_creations_perm; reflexivity).
    rewrite (bool_decide_ext _ _ (Hin r)).
    rewrite (bool_decide_ext (r <> [] /\ lastp r = "__init__.py" /\ removelast r ∈ code_creations)
               (r <> [] /\ lastp r = "__init__.py" /\ removelast r ∈ scaffold_dirs))
      by (rewrite Hin; reflexivity).
    reflexivity.
  - intros k Hk. exact (run_creates_other B code_creations m k code_creations_nonempty Hk).
Qed.

(** C2: when [os.path.exists(base_dir)] is false (and the working
    directory exists), the run leaves the filesystem as it is, writes
    exactly one message, the error naming the app, and ends normally
    (no exception). *)
Theorem handle_missing_app cwd app m o :
  is_dir m cwd = true -> exists_b cwd m (base_path cwd app) = false ->
  handle cwd app (mkState m o) =
  Ok tt (mkState m (o ++ [ERROR ("App '" ++ app ++ "' does not exist")])).
Proof. intros Hc Hx. exact (handle_missing cwd app m o Hc Hx). Qed.

(** C3: after a successful run on an existing app directory, a second run
    ends normally, leaves the filesystem exactly as the first run left it
    (no creation, no removal) and writes only the final message (no
    creation or removal message). *)
Theorem handle_second_run cwd app m o s1 :
  wf m -> is_dir m cwd = true -> exists_b cwd m (base_path cwd app) = true ->
  handle cwd app (mkState m o) = Ok tt s1 ->
  handle cwd app s1 = Ok tt (mkState (fsys s1) (out s1 ++ [final_msg app])).
Proof.
  intros Hwf Hc Hx H1. destruct (exists_resolve _ _ _ Hx) as [B [HR HB]].
  set (q := base_path cwd app) in *.
  rewrite (handle_exists cwd app m o B Hwf Hc HR HB) in H1. unfold_monad. fold q in H1.
  destruct (mfor code_ops (aop q B) (mkState m o)) as [[] s1'|e s1'] eqn:E; [|discriminate].
  unfold emit in H1. injection H1 as <-. cbn [fsys out].
  pose proof (base_inv_intro cwd q B m o Hwf HR HB) as Hi.
  pose proof (mfor_aop_inv cwd q B code_ops _ Hi) as Hi1. rewrite E in Hi1. cbn [res_state] in Hi1.
  assert (Hc1 : entry_at (fsys s1') cwd = Some Dir).
  { assert (Hc0 : entry_at m cwd = Some Dir)
      by (unfold is_dir in Hc; destruct (entry_at m cwd) as [[]|]; congruence).
    pose proof (code_run_inv cwd q B (fun s => entry_at (fsys s) cwd = Some Dir) (mkState m o)
      (fun o0 s s' _ Hi0 Hp E0 => aop_dir_mono cwd q B o0 s s' cwd Hi0 E0 Hp) Hi Hc0) as P.
    rewrite E in P. exact P. }
  destruct Hi1 as [Hwf1 [HB1 [st [cs [Hs Hw]]]]].
  assert (HR1 : resolve cwd (fsys s1') q = inr B) by (unfold resolve; rewrite Hs; exact Hw).
  rewrite (handle_exists cwd app (fsys s1') _ B Hwf1 ltac:(unfold is_dir; rewrite Hc1; reflexivity) HR1 HB1).
  unfold_monad. rewrite (mfor_idem q B code_ops _ s1' _ code_ops_ok E). reflexivity.
Qed.

(** C6: on an existing app directory, a run is the removal of
    [models.py], [admin.py], [tests.py], [views.py], then the creations in
    the order the specification lists them, then [models/helper/enums],
    then the final message. *)
Theorem handle_order cwd app m o B :
  wf m -> is_dir m cwd = true -> resolve cwd m (base_path cwd app) = inr B -> present m B = true ->
  handle cwd app (mkState m o) =
  (mfor spec_order (aop (base_path cwd app) B) ;; emit (final_msg app)) (mkState m o).
Proof.
  intros Hwf Hc HR HB. rewrite (handle_exists cwd app m o B Hwf Hc HR HB).
  replace spec_order with code_ops by (vm_compute; reflexivity). reflexivity.
Qed.

(** C8: when [base_dir] names a regular file, the existence check passes
    (no error message), the removals do nothing and the first creation
    raises [NotADirectoryError]: the run stops with the filesystem and the
    messages as they were. *)
Theorem handle_base_is_file cwd app m o B c :
  wf m -> is_dir m cwd = true -> resolve cwd m (base_path cwd app) = inr B ->
  entry_at m B = Some (File c) ->
  exists_b cwd m (base_path cwd app) = true /\
  handle cwd app (mkState m o) = Exc ENOTDIR (mkState m o).
Proof.
  intros Hwf Hc HR HF.
  assert (HB : present m B = true) by (unfold present; rewrite HF; reflexivity).
  assert (HnB : is_dir m B = false) by (unfold is_dir; rewrite HF; reflexivity).
  split; [unfold exists_b; rewrite HR; exact HB|].
  rewrite (handle_exists cwd app m o B Hwf Hc HR HB). unfold_monad.
  rewrite code_ops_split, mfor_app, mfor_settled.
  2:{ intros x Hx. apply in_map_iff in Hx as [d [<- Hd]].
      split; [simpl in Hd; repeat destruct Hd as [<-|Hd]; try reflexivity; contradiction|].
      simpl. rewrite entry_at_snoc. exact (wf_child m B d Hwf HnB). }
  change code_creations with (["admin"] :: List.tl code_creations). cbn [map mfor]. unfold_monad.
  rewrite (aop_create _ B ["admin"] m o (cons_ne_nil _ _)).
  unfold present at 1. rewrite entry_at_snoc, (wf_child m B _ Hwf HnB). cbn [removelast].
  rewrite app_nil_r, HnB. reflexivity.
Qed.

(** C4: [create_folder_with_init] on a path that exists (directory or
    file) changes nothing and writes nothing; and a directory [D] that
    exists without [__init__.py] before a run still has none after it,
    however the run ends. *)
Theorem cfwi_existing_noop cwd app m o p D :
  wf m -> exists_b cwd m p = true ->
  is_dir m D = true -> m !! (D ++ ["__init__.py"]) = None ->
  create_folder_with_init cwd p (mkState m o) = Ok tt (mkState m o) /\
  fsys (res_state (handle cwd app (mkState m o))) !! (D ++ ["__init__.py"]) = None.
Proof.
  intros Hwf Hx HD Hno. split.
  { unfold create_folder_with_init. unfold_monad. unfold os_path_exists, read_fs.
    cbn [fsys]. rewrite Hx. reflexivity. }
  destruct (handle_cases cwd app m o Hwf) as [[_ ->]|[[_ [_ ->]]|[B [Hc [HR [HB ->]]]]]];
    [exact Hno|exact Hno|].
  rewrite then_emit_fsys.
  apply (code_run_inv cwd (base_path cwd app) B
           (fun s => is_dir (fsys s) D = true /\ fsys s !! (D ++ ["__init__.py"]) = None));
    [|exact (base_inv_intro _ _ _ _ o Hwf HR HB)|split; assumption].
  intros o0 s s' Hok Hi [HDs Hns] E.
  assert (HDd : entry_at (fsys s) D = Some Dir)
    by (unfold is_dir in HDs; destruct (entry_at (fsys s) D) as [[]|]; congruence).
  split; [unfold is_dir; rewrite (aop_dir_mono _ _ _ _ _ _ _ Hi E HDd); reflexivity|].
  destruct (aop_ok_shape _ _ _ s s' E) as [Es|[[d [c [-> [Hk Es]]]]|[rel [c [n [-> [-> [-> [Hn [Hd Es]]]]]]]]]];
    rewrite Es.
  - exact Hns.
  - rewrite lookup_delete. destruct (decide _); [reflexivity|exact Hns].
  - destruct (create_ok_spec rel Hok) as [Hne [_ [_ Hinit]]].
    rewrite init_key, !lookup_insert_ne; [exact Hns| |].
    + intros Ek. apply app_inj_tail in Ek as [_ Ek]. apply Hinit. rewrite <- Ek.
      rewrite (snoc_decomp rel Hne) at 2. apply elem_of_app. right. left.
    + intros Ek. apply app_inj_tail in Ek as [Ek _]. rewrite Ek in Hn.
      rewrite (is_dir_present _ _ HDs) in Hn. discriminate.
Qed.

(** C5 (amended): for each of [models.py], [admin.py], [tests.py],
    [views.py] in this order, the entry [B/name] right under the app
    directory is: deleted, with one warning naming its path, when it is a
    regular file; skipped without a message when it is missing; and when it
    is a directory, [os.remove] raises [IsADirectoryError] and the run stops
    before the remaining names.  No other entry is touched, so a file of
    the same name in a subfolder is never removed. *)
Theorem remove_default_files_steps cwd q B m o :
  wf m -> resolve cwd m q = inr B -> present m B = true ->
  remove_default_files cwd q (mkState m o) = mfor (map RemoveOp default_files) (aop q B) (mkState m o) /\
  forall k, (forall d, d ∈ default_files -> k <> B ++ [d]) ->
  fsys (res_state (remove_default_files cwd q (mkState m o))) !! k = m !! k.
Proof.
  intros Hwf HR HB.
  pose proof (remove_refines cwd q B _ (base_inv_intro cwd q B m o Hwf HR HB)) as Href.
  split; [exact Href|]. intros k Hk. rewrite Href.
  apply (mfor_inv (fun s => fsys s !! k = m !! k)); [|reflexivity].
  intros x s Hin Hs. apply in_map_iff in Hin as [d [<- Hd]].
  destruct (aop q B (RemoveOp d) s) as [[] s'|e s'] eqn:E; simpl res_state.
  - destruct (aop_ok_shape _ _ _ s s' E) as [Es|[[d' [c [Ed [_ Es]]]]|[rel [_ [_ [Eo _]]]]]];
      [rewrite Es; exact Hs| |discriminate].
    injection Ed as <-. rewrite Es, lookup_delete_ne; [exact Hs|].
    apply not_eq_sym, Hk. apply list_elem_of_In. exact Hd.
  - rewrite (aop_exc_state _ _ _ _ _ _ E). exact Hs.
Qed.

Lemma default_op_ok d : d ∈ default_files -> op_ok (RemoveOp d) = true.
Proof.
  intros Hd. simpl. rewrite bool_decide_true by exact Hd.
  repeat (apply elem_of_cons in Hd as [->|Hd]; [reflexivity|]). apply elem_of_nil in Hd. contradiction.
Qed.

(** C9: whatever way a run ends, every entry that existed before it is
    still there with the same content, except files [B/models.py],
    [B/admin.py], [B/tests.py], [B/views.py] right under the app directory
    [B], which may be deleted; no directory is removed and no existing file
    is rewritten. *)
Theorem handle_frame cwd app m o k e :
  wf m -> m !! k = Some e ->
  fsys (res_state (handle cwd app (mkState m o))) !! k = Some e \/
  exists B d c, resolve cwd m (base_path cwd app) = inr B /\ d ∈ default_files /\
    k = B ++ [d] /\ e = File c /\ fsys (res_state (handle cwd app (mkState m o))) !! k = None.
Proof.
  intros Hwf Hk.
  destruct (handle_cases cwd app m o Hwf) as [[_ ->]|[[_ [_ ->]]|[B [Hc [HR [HB ->]]]]]];
    [left; exact Hk|left; exact Hk|].
  rewrite then_emit_fsys.
  cut (fsys (res_state (mfor code_ops (aop (base_path cwd app) B) (mkState m o))) !! k = Some e \/
       exists d c, d ∈ default_files /\ k = B ++ [d] /\ e = File c /\
       fsys (res_state (mfor code_ops (aop (base_path cwd app) B) (mkState m o))) !! k = None).
  { intros [H|[d [c H]]]; [left; exact H|right; exists B, d, c; tauto]. }
  apply (code_run_inv cwd (base_path cwd app) B
           (fun s => fsys s !! k = Some e \/
                     exists d c, d ∈ default_files /\ k = B ++ [d] /\ e = File c /\ fsys s !! k = None));
    [|exact (base_inv_intro _ _ _ _ o Hwf HR HB)|left; exact Hk].
  intros o0 s s' Hok Hi Hs E.
  destruct Hs as [Hs|[d [c [Hd [-> [-> Hs]]]]]].
  - destruct (aop_ok_shape _ _ _ s s' E) as [Es|[[d [c [-> [Hk' Es]]]]|[rel [c [n [-> [-> [-> [Hn [Hd Es]]]]]]]]]];
      rewrite Es.
    + left. exact Hs.
    + destruct (decide (B ++ [d] = k)) as [<-|Hne].
      * right. exists d, c. rewrite entry_at_snoc, Hs in Hk'. injection Hk' as ->.
        destruct (remove_ok_spec d Hok) as [Hd _].
        repeat split; [exact Hd|]. apply lookup_delete_eq.
      * left. rewrite lookup_delete_ne by exact Hne. exact Hs.
    + left. destruct (create_facts _ _ _ (proj1 Hi) Hn Hd) as [_ [Hab1 [Hab2 _]]].
      apply lookup_insert_None in Hab2 as [Hab2 _].
      rewrite !lookup_insert_ne; [exact Hs|..]; intros Ek; subst k; congruence.
  - right. exists d, c. repeat split; [exact Hd|].
    pose proof (aop_keeps_settled _ B (RemoveOp d) o0 s s' (default_op_ok d Hd) Hok E) as Hset.
    simpl in Hset. rewrite !entry_at_snoc in Hset. apply Hset. exact Hs.
Qed.

(** A directory given by its plain names is reached from the root. *)
Lemma walk_abs m c : wf m -> forallb plainb c = true -> is_dir m c = true -> walk m [] c = inr c.
Proof.
  intros Hwf. induction c as [|x c IH] using rev_ind; intros Hp Hd; [reflexivity|].
  rewrite forallb_app in Hp. apply andb_prop in Hp as [Hp Hx]. simpl in Hx. rewrite andb_true_r in Hx.
  pose proof (present_child_dir m c x Hwf (is_dir_present _ _ Hd)) as Hc.
  rewrite walk_app, (IH Hp Hc). simpl. unfold dir_check, is_dir in *.
  destruct (entry_at m c) as [[]|]; try discriminate. rewrite step_plain by exact Hx. reflexivity.
Qed.

Lemma base_path_empty_resolves cwd m :
  wf m -> forallb plainb cwd = true -> is_dir m cwd = true ->
  resolve cwd m (base_path cwd "") = inr cwd.
Proof.
  intros Hwf Hp Hd. unfold base_path, resolve, cwd_path.
  destruct cwd as [|x r] eqn:Ec; [reflexivity|].
  assert (Hl : String.eqb (lastp (x :: r)) "" = false).
  { rewrite (snoc_decomp (x :: r)) in Hp by discriminate.
    rewrite forallb_app in Hp. apply andb_prop in Hp as [_ Hp]. simpl in Hp.
    rewrite andb_true_r in Hp. exact (plainb_nonempty _ Hp). }
  change (split_path "") with [""]. unfold posix_join. simpl is_abs.
  change (lastp ("" :: x :: r)) with (lastp (x :: r)). rewrite Hl. simpl app.
  change (start_of (x :: r) ("" :: x :: r ++ [""])) with (Some ([] : list string, (x :: r) ++ [""])).
  cbv iota beta. rewrite walk_app, (walk_abs m (x :: r) Hwf Hp Hd). simpl.
  unfold dir_check, is_dir in *. destruct (entry_at m (x :: r)) as [[]|]; try discriminate.
  reflexivity.
Qed.

(** C10 (amended): for the empty app name, [base_dir] resolves to the
    working directory itself, the existence check passes, and the run is
    the whole sequence of steps on the working directory: its root-level
    [models.py], [admin.py], [tests.py], [views.py] are deleted when they
    are regular files (a directory of one of these names makes the run stop
    with [IsADirectoryError]), and the structure is created in it. *)
Theorem handle_empty_app_name cwd m o :
  wf m -> forallb plainb cwd = true -> is_dir m cwd = true ->
  resolve cwd m (base_path cwd "") = inr cwd /\ exists_b cwd m (base_path cwd "") = true /\
  handle cwd "" (mkState m o) =
  (mfor code_ops (aop (base_path cwd "") cwd) ;; emit (final_msg "")) (mkState m o).
Proof.
  intros Hwf Hp Hd. pose proof (base_path_empty_resolves cwd m Hwf Hp Hd) as HR.
  split; [exact HR|split].
  - unfold exists_b. rewrite HR. exact (is_dir_present _ _ Hd).
  - exact (handle_exists cwd "" m o cwd Hwf Hd HR (is_dir_present _ _ Hd)).
Qed.

(** ** Nested creation by [os.makedirs] *)

Lemma mk_chain_app c r r' m : mk_chain c (r ++ r') m = mk_chain (c ++ r) r' (mk_chain c r m).
Proof.
  revert c m; induction r as [|x r IH]; intros c m; simpl; [rewrite app_nil_r; reflexivity|].
  rewrite IH, <- app_assoc. reflexivity.
Qed.

Lemma anc_ok_app m c r r' : anc_ok m c (r ++ r') = anc_ok m c r && anc_ok m (c ++ r) r'.
Proof.
  revert c; induction r as [|x r IH]; intros c; simpl; [rewrite app_nil_r; reflexivity|].
  rewrite IH, <- app_assoc, andb_assoc. reflexivity.
Qed.

Lemma chain_length c r k :
  k ∈ chain c r -> List.length c < List.length k <= List.length c + List.length r.
Proof.
  revert c; induction r as [|x r IH]; intros c Hk; simpl in Hk.
  - apply elem_of_nil in Hk. contradiction.
  - apply elem_of_cons in Hk as [->|Hk]; [rewrite length_app; simpl; lia|].
    apply IH in Hk. rewrite length_app in Hk. simpl in *. lia.
Qed.

Lemma mk_chain_lookup c r m k :
  mk_chain c r m !! k =
  match m !! k with
  | Some e => Some e
  | None => if bool_decide (k ∈ chain c r) then Some Dir else None
  end.
Proof.
  revert c m; induction r as [|x r IH]; intros c m; simpl.
  - destruct (m !! k); reflexivity.
  - rewrite IH.
    assert (Hc : k <> c ++ [x] ->
      bool_decide (k ∈ chain (c ++ [x]) r) = bool_decide (k ∈ (c ++ [x]) :: chain (c ++ [x]) r))
      by (intros Hne; apply bool_decide_ext; rewrite elem_of_cons; tauto).
    destruct (present m (c ++ [x])) eqn:Hp.
    + destruct (m !! k) eqn:Ek; [reflexivity|].
      destruct (decide (k = c ++ [x])) as [->|Hne].
      * unfold present in Hp. rewrite entry_at_snoc, Ek in Hp. discriminate.
      * rewrite Hc by exact Hne. reflexivity.
    + destruct (decide (k = c ++ [x])) as [->|Hne].
      * rewrite lookup_insert_eq. unfold present in Hp. rewrite entry_at_snoc in Hp.
        destruct (m !! (c ++ [x])); [discriminate|].
        rewrite bool_decide_true by (apply elem_of_cons; left; reflexivity). reflexivity.
      * rewrite lookup_insert_ne by congruence. destruct (m !! k); [reflexivity|].
        rewrite Hc by exact Hne. reflexivity.
Qed.

Lemma mk_chain_mono c r m l : entry_at m l = Some Dir -> entry_at (mk_chain c r m) l = Some Dir.
Proof. destruct l as [|y l]; [reflexivity|]. simpl. rewrite mk_chain_lookup. intros ->. reflexivity. Qed.

Lemma anc_ok_ext m m' c r :
  (forall k, List.length c < List.length k -> m' !! k = m !! k) -> anc_ok m' c r = anc_ok m c r.
Proof.
  revert c; induction r as [|x r IH]; intros c Hk; simpl; [reflexivity|].
  unfold present, is_dir. rewrite !entry_at_snoc, Hk by (rewrite length_app; simpl; lia).
  rewrite IH; [reflexivity|]. intros k Hl. apply Hk. rewrite length_app in Hl. simpl in Hl. lia.
Qed.

Lemma wf_mk_chain c r m :
  wf m -> is_dir m c = true -> anc_ok m c r = true ->
  wf (mk_chain c r m) /\ is_dir (mk_chain c r m) (c ++ r) = true.
Proof.
  revert c m; induction r as [|x r IH]; intros c m Hwf Hc Ha; simpl in *.
  - rewrite app_nil_r. auto.
  - apply andb_prop in Ha as [Hx Ha].
    replace (c ++ x :: r) with ((c ++ [x]) ++ r) by (rewrite <- app_assoc; reflexivity).
    destruct (present m (c ++ [x])) eqn:Hp; simpl in Hx; [apply IH; assumption|].
    assert (Hab : m !! (c ++ [x]) = None)
      by (unfold present in Hp; rewrite entry_at_snoc in Hp; destruct (m !! _); congruence).
    apply IH.
    + apply wf_insert; [exact Hwf| |rewrite removelast_snoc; exact Hc|exact Hab].
      intros E. apply app_eq_nil in E as [_ E]. discriminate.
    + unfold is_dir. rewrite entry_at_snoc, lookup_insert_eq. reflexivity.
    + rewrite (anc_ok_ext m); [exact Ha|]. intros k Hl.
      rewrite lookup_insert_ne; [reflexivity|]. intros E. subst k. lia.
Qed.

Lemma present_prefix m c r : wf m -> present m (c ++ r) = true -> present m c = true.
Proof.
  intros Hwf. induction r as [|y r IH] using rev_ind; intros Hp; [rewrite app_nil_r in Hp; exact Hp|].
  rewrite app_assoc in Hp. apply IH, is_dir_present, (present_child_dir m _ y Hwf Hp).
Qed.

Lemma mk_chain_present c r m : wf m -> present m (c ++ r) = true -> mk_chain c r m = m.
Proof.
  intros Hwf. revert c; induction r as [|x r IH]; intros c Hp; simpl; [reflexivity|].
  replace (c ++ x :: r) with ((c ++ [x]) ++ r) in Hp by (rewrite <- app_assoc; reflexivity).
  rewrite (present_prefix m (c ++ [x]) r Hwf Hp). apply IH. exact Hp.
Qed.

Lemma anc_ok_last m c r :
  anc_ok m c r = true -> r <> [] -> present m (c ++ r) = true -> is_dir m (c ++ r) = true.
Proof.
  intros Ha Hne Hp. destruct (exists_last Hne) as [r' [y ->]].
  rewrite anc_ok_app in Ha. apply andb_prop in Ha as [_ Ha]. simpl in Ha.
  rewrite andb_true_r in Ha. rewrite app_assoc in Hp |- *. rewrite Hp in Ha. exact Ha.
Qed.

Lemma lastp_op_path q ns : ns <> [] -> lastp (op_path q ns) = lastp ns.
Proof.
  intros Hne. destruct (exists_last Hne) as [r [x ->]].
  rewrite op_path_snoc, posix_join_single, !lastp_snoc. reflexivity.
Qed.

Lemma last_plain ns : forallb plainb ns = true -> ns <> [] -> String.eqb (lastp ns) "" = false.
Proof.
  intros Hp Hne. destruct (exists_last Hne) as [r [x ->]]. rewrite lastp_snoc.
  rewrite forallb_app in Hp. apply andb_prop in Hp as [_ Hx]. simpl in Hx.
  rewrite andb_true_r in Hx. exact (plainb_nonempty x Hx).
Qed.

Lemma trim_op_path q ns : forallb plainb ns = true -> ns <> [] -> trim (op_path q ns) = op_path q ns.
Proof. intros Hp Hne. unfold trim. rewrite lastp_op_path, last_plain by assumption. reflexivity. Qed.

Lemma op_path_length q ns : forallb plainb ns = true -> List.length ns <= List.length (op_path q ns).
Proof.
  induction ns as [|x ns IH] using rev_ind; intros Hp; [simpl; lia|].
  rewrite forallb_app in Hp. apply andb_prop in Hp as [Hp _].
  rewrite op_path_snoc, posix_join_single, !length_app. simpl.
  destruct ns as [|y ns']; [simpl; lia|].
  rewrite trim_op_path by (assumption || discriminate). specialize (IH Hp). lia.
Qed.

Lemma nonempty_last p : String.eqb (lastp p) "" = false -> nonempty_path p = true.
Proof.
  destruct p as [|a [|b p]]; intros H.
  - simpl in H. discriminate.
  - destruct a; [simpl in H; discriminate|reflexivity].
  - destruct a; reflexivity.
Qed.

Lemma posix_split_snoc P n : String.eqb (lastp P) "" = false -> posix_split (P ++ [n]) = (P, n).
Proof.
  intros HP. unfold posix_split. rewrite lastp_snoc, removelast_snoc.
  assert (Hne : P <> []) by (intros ->; simpl in HP; discriminate).
  destruct (exists_last Hne) as [Y [x ->]]. rewrite lastp_snoc in HP.
  destruct (Y ++ [x]) as [|z zs] eqn:E; [apply app_eq_nil in E as [_ E]; discriminate|].
  rewrite <- E, forallb_app. destruct x as [|a x']; [discriminate HP|].
  simpl forallb. rewrite andb_false_r. rewrite strip_snoc by exact HP. reflexivity.
Qed.

Lemma posix_split_op_path q ns n :
  forallb plainb ns = true -> ns <> [] ->
  posix_split (posix_join (op_path q ns) [n]) = (op_path q ns, n).
Proof.
  intros Hp Hne. rewrite posix_join_single, trim_op_path by assumption.
  apply posix_split_snoc. rewrite lastp_op_path by exact Hne. apply last_plain; assumption.
Qed.

Lemma nonempty_op_path q ns :
  forallb plainb ns = true -> ns <> [] -> nonempty_path (op_path q ns) = true.
Proof. intros Hp Hne. apply nonempty_last. rewrite lastp_op_path by exact Hne. apply last_plain; assumption. Qed.

Section Chain.

Variable cwd : list string.

(** [os.path.exists(os.path.join(q, *ns))] asks whether [c/ns] exists. *)
Lemma op_path_resolve m q st cs c ns :
  wf m -> start_of cwd q = Some (st, cs) -> walk m st cs = inr c -> forallb plainb ns = true ->
  exists cs', start_of cwd (op_path q ns) = Some (st, cs') /\
    (walk m st cs' = inr (c ++ ns) \/
     (exists e, walk m st cs' = inl e) /\ present m (c ++ ns) = false).
Proof.
  intros Hwf Hs Hw. induction ns as [|x ns IH] using rev_ind; intros Hp.
  - exists cs. rewrite app_nil_r. auto.
  - rewrite forallb_app in Hp. apply andb_prop in Hp as [Hp Hx]. simpl in Hx.
    rewrite andb_true_r in Hx.
    destruct (IH Hp) as [cs' [Hs' Hw']].
    exists (trim cs' ++ [x]). split; [rewrite op_path_snoc; exact (start_of_join cwd _ x _ _ Hs')|].
    rewrite (walk_jp m st cs' x Hx). rewrite app_assoc.
    destruct Hw' as [Hw'|[[e He] Hab]].
    + rewrite Hw'. unfold dir_check. destruct (entry_at m (c ++ ns)) as [[|t]|] eqn:E;
        [left; reflexivity| |];
        (right; split; [eexists; reflexivity|]);
        unfold present; rewrite entry_at_snoc, wf_child;
        try reflexivity; try exact Hwf; unfold is_dir; rewrite E; reflexivity.
    + rewrite He. right. split; [eexists; reflexivity|].
      unfold present. rewrite entry_at_snoc, wf_child_absent; [reflexivity|exact Hwf|exact Hab].
Qed.

Lemma op_path_exists m q st cs c ns :
  wf m -> start_of cwd q = Some (st, cs) -> walk m st cs = inr c -> forallb plainb ns = true ->
  exists_b cwd m (op_path q ns) = present m (c ++ ns).
Proof.
  intros Hwf Hs Hw Hp. destruct (op_path_resolve m q st cs c ns Hwf Hs Hw Hp) as [cs' [Hs' H]].
  unfold exists_b, resolve. rewrite Hs'. destruct H as [H|[[e H] Hab]]; rewrite H; [reflexivity|].
  symmetry. exact Hab.
Qed.

Lemma makedirs_join_fuel fuel s q n st cs c :
  plainb n = true -> start_of cwd q = Some (st, cs) -> walk (fsys s) st cs = inr c ->
  present (fsys s) c = true ->
  makedirs_fuel cwd fuel (posix_join q [n]) s = os_mkdir cwd (posix_join q [n]) s.
Proof.
  intros Hn Hs Hw Hp. destruct fuel as [|fuel]; [reflexivity|].
  pose proof (split_join_head cwd (fsys s) q n st cs c Hn Hs Hw Hp) as H.
  destruct (posix_split (posix_join q [n])) as [h t] eqn:Hsp.
  destruct H as [-> [Hne Hex]].
  cbn [makedirs_fuel]. rewrite Hsp, (plainb_nonempty n Hn), Hne. simpl.
  unfold_monad. unfold os_path_exists, read_fs. rewrite (plainb_nonempty n Hn). simpl.
  rewrite Hex. reflexivity.
Qed.

(** [with open(os.path.join(p, "__init__.py"), "w")] where [p] resolves to a directory. *)
Lemma open_init m o p st cs d :
  start_of cwd p = Some (st, cs) -> walk m st cs = inr d -> is_dir m d = true ->
  m !! (d ++ ["__init__.py"]) = None ->
  open_w cwd (posix_join p ["__init__.py"]) (mkState m o) =
  Ok tt (mkState (<[d ++ ["__init__.py"] := File ""]> m) o).
Proof.
  intros Hs Hw Hd Hab.
  unfold open_w, resolve_parent. cbn [fsys out].
  rewrite (start_of_join cwd p "__init__.py" st cs Hs), removelast_snoc, lastp_snoc.
  rewrite (walk_trim _ _ _ _ Hw). unfold dir_check, is_dir in *.
  destruct (entry_at m d) as [[]|]; try discriminate. simpl.
  rewrite entry_at_snoc, Hab. reflexivity.
Qed.

Section Makedirs.

Variables (q : path) (st cs c : list string) (m : fs) (o : list msg).
Hypothesis Hwf : wf m.
Hypothesis Hs : start_of cwd q = Some (st, cs).
Hypothesis Hw : walk m st cs = inr c.
Hypothesis Hc : is_dir m c = true.

(** [os.makedirs(os.path.join(q, *ns))] makes every missing location along [ns]. *)
Lemma makedirs_chain ns fuel :
  forallb plainb ns = true -> ns <> [] -> anc_ok m c ns = true ->
  present m (c ++ ns) = false -> List.length ns <= S fuel ->
  makedirs_fuel cwd fuel (op_path q ns) (mkState m o) = Ok tt (mkState (mk_chain c ns m) o).
Proof.
  revert fuel. induction ns as [|n ns0 IH] using rev_ind; intros fuel Hp Hne Ha Hab Hl;
    [congruence|].
  rewrite forallb_app in Hp. apply andb_prop in Hp as [Hp0 Hn]. simpl in Hn.
  rewrite andb_true_r in Hn.
  rewrite app_assoc in Hab. rewrite op_path_snoc, mk_chain_app.
  destruct (decide (ns0 = [])) as [->|Hne0].
  - change (op_path q []) with q. rewrite app_nil_r in Hab |- *. simpl mk_chain.
    rewrite (makedirs_join_fuel fuel (mkState m o) q n st cs c Hn Hs Hw (is_dir_present _ _ Hc)).
    rewrite (mkdir_join cwd (mkState m o) q n st cs c Hn Hs Hw (is_dir_present _ _ Hc) Hab).
    cbn [fsys out]. rewrite Hc, Hab. reflexivity.
  - destruct fuel as [|fuel].
    { rewrite length_app in Hl. destruct ns0; [congruence|simpl in Hl; lia]. }
    cbn [makedirs_fuel]. rewrite (posix_split_op_path q ns0 n Hp0 Hne0), (plainb_nonempty n Hn).
    rewrite (nonempty_op_path q ns0 Hp0 Hne0). simpl andb. cbv iota beta.
    unfold_monad. unfold os_path_exists, read_fs. rewrite (plainb_nonempty n Hn).
    cbn [andb negb fsys out].
    rewrite (op_path_exists m q st cs c ns0 Hwf Hs Hw Hp0).
    rewrite anc_ok_app in Ha. apply andb_prop in Ha as [Ha0 _].
    destruct (present m (c ++ ns0)) eqn:Hp0'.
    + destruct (op_path_walk cwd m q st cs c ns0 Hwf Hs Hw Hp0 Hp0') as [cs' [Hs' Hw']].
      rewrite (mkdir_join cwd (mkState m o) (op_path q ns0) n st cs' (c ++ ns0) Hn Hs' Hw' Hp0' Hab).
      cbn [fsys out]. rewrite (anc_ok_last m c ns0 Ha0 Hne0 Hp0').
      rewrite (mk_chain_present c ns0 m Hwf Hp0'). simpl mk_chain. rewrite Hab. reflexivity.
    + unfold catch_eexist.
      rewrite (IH fuel Hp0 Hne0 Ha0 eq_refl) by (rewrite length_app in Hl; simpl in Hl; lia).
      destruct (plainb_dots n Hn) as [Hdot _]. rewrite Hdot.
      set (m1 := mk_chain c ns0 m).
      destruct (wf_mk_chain c ns0 m Hwf Hc Ha0) as [Hwf1 Hd1]. fold m1 in Hwf1, Hd1.
      assert (Hw1 : walk m1 st cs = inr c) by (apply (walk_mono m); [apply mk_chain_mono|exact Hw]).
      destruct (op_path_walk cwd m1 q st cs c ns0 Hwf1 Hs Hw1 Hp0 (is_dir_present _ _ Hd1))
        as [cs' [Hs' Hw']].
      assert (Hab1 : present m1 ((c ++ ns0) ++ [n]) = false).
      { unfold present. rewrite entry_at_snoc. unfold m1. rewrite mk_chain_lookup.
        rewrite (wf_child_absent m (c ++ ns0) n Hwf Hp0').
        rewrite bool_decide_false; [reflexivity|]. intros Hin. apply chain_length in Hin.
        rewrite !length_app in Hin. simpl in Hin. lia. }
      rewrite (mkdir_join cwd (mkState m1 o) (op_path q ns0) n st cs' (c ++ ns0) Hn Hs' Hw'
                 (is_dir_present _ _ Hd1) Hab1).
      cbn [fsys out]. rewrite Hd1. simpl mk_chain. rewrite Hab1. reflexivity.
Qed.

End Makedirs.

End Chain.

(** C7 (amended): for a path [os.path.join(q, n1, ..., nk)] built from a
    path [q] naming an existing directory [c] and plain names [n1..nk]
    (k >= 1), when the path does not exist and every location along it
    that does exist is a directory, [create_folder_with_init] succeeds,
    creates the directory together with every missing intermediate
    directory, creates exactly one empty [__init__.py], inside the leaf
    directory only, changes nothing else, and emits exactly one success
    message naming the path. *)
Theorem cfwi_creates_chain cwd q c m o ns :
  wf m -> resolve cwd m q = inr c -> is_dir m c = true ->
  forallb plainb ns = true -> ns <> [] -> anc_ok m c ns = true ->
  exists_b cwd m (op_path q ns) = false ->
  exists m',
    create_folder_with_init cwd (op_path q ns) (mkState m o) =
      Ok tt (mkState m' (o ++ [SUCCESS ("Created " ++ render (op_path q ns))])) /\
    forall k, m' !! k =
      if bool_decide (k = c ++ ns ++ ["__init__.py"]) then Some (File "")
      else match m !! k with
           | Some e => Some e
           | None => if bool_decide (k ∈ chain c ns) then Some Dir else None
           end.
Proof.
  intros Hwf HR Hc Hp Hne Ha Hex. unfold resolve in HR.
  destruct (start_of cwd q) as [[st cs]|] eqn:Hs; [|discriminate].
  assert (Hab : present m (c ++ ns) = false)
    by (rewrite <- (op_path_exists cwd m q st cs c ns Hwf Hs HR Hp); exact Hex).
  set (m1 := mk_chain c ns m).
  destruct (wf_mk_chain c ns m Hwf Hc Ha) as [Hwf1 Hd1]. fold m1 in Hwf1, Hd1.
  assert (Hw1 : walk m1 st cs = inr c) by (apply (walk_mono m); [apply mk_chain_mono|exact HR]).
  destruct (op_path_walk cwd m1 q st cs c ns Hwf1 Hs Hw1 Hp (is_dir_present _ _ Hd1))
    as [cs' [Hs' Hw']].
  assert (Hab1 : m1 !! ((c ++ ns) ++ ["__init__.py"]) = None).
  { unfold m1. rewrite mk_chain_lookup, (wf_child_absent m (c ++ ns) _ Hwf Hab).
    rewrite bool_decide_false; [reflexivity|]. intros Hin. apply chain_length in Hin.
    rewrite !length_app in Hin. simpl in Hin. lia. }
  exists (<[(c ++ ns) ++ ["__init__.py"] := File ""]> m1). split.
  - unfold create_folder_with_init. unfold_monad. unfold os_path_exists, read_fs. cbn [fsys out].
    rewrite Hex. unfold os_makedirs.
    rewrite (makedirs_chain cwd q st cs c m o Hwf Hs HR Hc ns _ Hp Hne Ha Hab)
      by (pose proof (op_path_length q ns Hp); lia).
    fold m1. rewrite (open_init cwd m1 o (op_path q ns) st cs' (c ++ ns) Hs' Hw' Hd1 Hab1).
    reflexivity.
  - intros k. rewrite <- app_assoc. destruct (decide (k = c ++ ns ++ ["__init__.py"])) as [->|Hk].
    + rewrite lookup_insert_eq, bool_decide_true by reflexivity. reflexivity.
    + rewrite lookup_insert_ne by congruence. rewrite bool_decide_false by exact Hk.
      unfold m1. apply mk_chain_lookup.
Qed.

(** ** Concrete runs *)

Lemma wf_empty : wf ∅.
Proof. intros k e Hk. rewrite lookup_empty in Hk. discriminate. Qed.

Ltac solve_wf :=
  repeat (apply wf_insert; [| discriminate | vm_compute; reflexivity | vm_compute; reflexivity]);
  exact wf_empty.

Lemma ex_fs_wf : wf ex_fs.
Proof. unfold ex_fs. solve_wf. Qed.

Lemma ex_fs_admin_wf : wf ex_fs_admin.
Proof. unfold ex_fs_admin, ex_fs. solve_wf. Qed.

Lemma ex_fs_file_wf : wf ex_fs_file.
Proof. unfold ex_fs_file. solve_wf. Qed.

Lemma ex_fs_cwd_wf : wf ex_fs_cwd.
Proof. unfold ex_fs_cwd. solve_wf. Qed.

Lemma ex_fs_empty_app r : r <> [] -> ex_fs !! (["home"; "myapp"] ++ r) = None.
Proof.
  intros Hr. unfold ex_fs. destruct r as [|x r]; [congruence|].
  rewrite !lookup_insert_ne, lookup_empty; [reflexivity| |];
    intros E; apply (f_equal (@List.length string)) in E; simpl in E; lia.
Qed.

Lemma handle_empty_app_tree_witness :
  wf ex_fs /\ is_dir ex_fs ["home"] = true /\
  resolve ["home"] ex_fs (base_path ["home"] "myapp") = inr ["home"; "myapp"] /\
  is_dir ex_fs ["home"; "myapp"] = true /\
  (forall r, r <> [] -> ex_fs !! (["home"; "myapp"] ++ r) = None) /\
  exists m' plan,
    handle ["home"] "myapp" (mkState ex_fs []) =
      Ok tt (mkState m' ([] ++ map (created_msg (base_path ["home"] "myapp")) plan
                            ++ [final_msg "myapp"])) /\
    plan ≡ₚ scaffold_dirs /\
    (forall r, r <> [] -> m' !! (["home"; "myapp"] ++ r) = scaffold_entry r) /\
    (forall k, (forall r, r <> [] -> k <> ["home"; "myapp"] ++ r) -> m' !! k = ex_fs !! k).
Proof.
  split; [exact ex_fs_wf|]. split; [vm_compute; reflexivity|].
  split; [vm_compute; reflexivity|]. split; [vm_compute; reflexivity|].
  split; [exact ex_fs_empty_app|].
  apply (handle_empty_app_tree ["home"] "myapp" ex_fs [] ["home"; "myapp"]);
    [exact ex_fs_wf|vm_compute; reflexivity|vm_compute; reflexivity|vm_compute; reflexivity
    |exact ex_fs_empty_app].
Defined.

Lemma handle_missing_app_witness :
  is_dir ex_fs ["home"] = true /\ exists_b ["home"] ex_fs (base_path ["home"] "other") = false /\
  handle ["home"] "other" (mkState ex_fs []) =
  Ok tt (mkState ex_fs ([] ++ [ERROR ("App '" ++ "other" ++ "' does not exist")])).
Proof.
  split; [vm_compute; reflexivity|]. split; [vm_compute; reflexivity|].
  apply (handle_missing_app ["home"] "other" ex_fs []); vm_compute; reflexivity.
Defined.

Lemma handle_second_run_witness :
  wf ex_fs /\ is_dir ex_fs ["home"] = true /\
  exists_b ["home"] ex_fs (base_path ["home"] "myapp") = true /\
  handle ["home"] "myapp" (mkState ex_fs []) =
    Ok tt (res_state (handle ["home"] "myapp" (mkState ex_fs []))) /\
  handle ["home"] "myapp" (res_state (handle ["home"] "myapp" (mkState ex_fs []))) =
  Ok tt (mkState (fsys (res_state (handle ["home"] "myapp" (mkState ex_fs []))))
                 (out (res_state (handle ["home"] "myapp" (mkState ex_fs []))) ++ [final_msg "myapp"])).
Proof.
  split; [exact ex_fs_wf|]. split; [vm_compute; reflexivity|].
  split; [vm_compute; reflexivity|]. split; [vm_compute; reflexivity|].
  apply (handle_second_run ["home"] "myapp" ex_fs []);
    [exact ex_fs_wf|vm_compute; reflexivity|vm_compute; reflexivity|vm_compute; reflexivity].
Defined.

Lemma cfwi_existing_noop_witness :
  wf ex_fs /\ exists_b ["home"] ex_fs [""; "home"; "myapp"] = true /\
  is_dir ex_fs ["home"; "myapp"] = true /\ ex_fs !! (["home"; "myapp"] ++ ["__init__.py"]) = None /\
  create_folder_with_init ["home"] [""; "home"; "myapp"] (mkState ex_fs []) = Ok tt (mkState ex_fs []) /\
  fsys (res_state (handle ["home"] "myapp" (mkState ex_fs []))) !! (["home"; "myapp"] ++ ["__init__.py"]) = None.
Proof.
  split; [exact ex_fs_wf|]. split; [vm_compute; reflexivity|].
  split; [vm_compute; reflexivity|]. split; [vm_compute; reflexivity|].
  apply (cfwi_existing_noop ["home"] "myapp" ex_fs [] [""; "home"; "myapp"] ["home"; "myapp"]);
    [exact ex_fs_wf|vm_compute; reflexivity..].
Defined.

Lemma remove_default_files_steps_witness :
  wf ex_fs_admin /\
  resolve ["home"] ex_fs_admin (base_path ["home"] "myapp") = inr ["home"; "myapp"] /\
  present ex_fs_admin ["home"; "myapp"] = true /\
  remove_default_files ["home"] (base_path ["home"] "myapp") (mkState ex_fs_admin []) =
    mfor (map RemoveOp default_files) (aop (base_path ["home"] "myapp") ["home"; "myapp"])
      (mkState ex_fs_admin []) /\
  forall k, (forall d, d ∈ default_files -> k <> ["home"; "myapp"] ++ [d]) ->
  fsys (res_state (remove_default_files ["home"] (base_path ["home"] "myapp") (mkState ex_fs_admin [])))
    !! k = ex_fs_admin !! k.
Proof.
  split; [exact ex_fs_admin_wf|]. split; [vm_compute; reflexivity|].
  split; [vm_compute; reflexivity|].
  apply (remove_default_files_steps ["home"] (base_path ["home"] "myapp") ["home"; "myapp"] ex_fs_admin []);
    [exact ex_fs_admin_wf|vm_compute; reflexivity|vm_compute; reflexivity].
Defined.

(** C5 fails when [models.py] is a directory: [admin.py] exists, yet
    [os.remove] on [models.py] raises [IsADirectoryError] first and
    [admin.py] is never deleted. *)
Lemma remove_default_files_counterexample :
  wf ex_fs_models_dir /\
  exists_b ["home"] ex_fs_models_dir (posix_join (base_path ["home"] "myapp") ["admin.py"]) = true /\
  remove_default_files ["home"] (base_path ["home"] "myapp") (mkState ex_fs_models_dir []) =
    Exc EISDIR (mkState ex_fs_models_dir []) /\
  fsys (res_state (remove_default_files ["home"] (base_path ["home"] "myapp")
                     (mkState ex_fs_models_dir []))) !! ["home"; "myapp"; "admin.py"] = Some (File "x").
Proof.
  split; [unfold ex_fs_models_dir, ex_fs; solve_wf|].
  vm_compute. split; [reflexivity|]. split; reflexivity.
Qed.

Lemma handle_order_witness :
  wf ex_fs /\ is_dir ex_fs ["home"] = true /\
  resolve ["home"] ex_fs (base_path ["home"] "myapp") = inr ["home"; "myapp"] /\
  present ex_fs ["home"; "myapp"] = true /\
  handle ["home"] "myapp" (mkState ex_fs []) =
  (mfor spec_order (aop (base_path ["home"] "myapp") ["home"; "myapp"]) ;; emit (final_msg "myapp"))
    (mkState ex_fs []).
Proof.
  split; [exact ex_fs_wf|]. split; [vm_compute; reflexivity|].
  split; [vm_compute; reflexivity|]. split; [vm_compute; reflexivity|].
  apply (handle_order ["home"] "myapp" ex_fs [] ["home"; "myapp"]);
    [exact ex_fs_wf|vm_compute; reflexivity..].
Defined.

Lemma cfwi_creates_chain_witness :
  wf ex_fs /\ resolve ["home"] ex_fs (base_path ["home"] "myapp") = inr ["home"; "myapp"] /\
  is_dir ex_fs ["home"; "myapp"] = true /\ forallb plainb ["models"; "helper"; "enums"] = true /\
  ["models"; "helper"; "enums"] <> [] /\ anc_ok ex_fs ["home"; "myapp"] ["models"; "helper"; "enums"] = true /\
  exists_b ["home"] ex_fs (op_path (base_path ["home"] "myapp") ["models"; "helper"; "enums"]) = false /\
  exists m',
    create_folder_with_init ["home"] (op_path (base_path ["home"] "myapp") ["models"; "helper"; "enums"])
      (mkState ex_fs []) =
      Ok tt (mkState m' ([] ++ [SUCCESS ("Created " ++
               render (op_path (base_path ["home"] "myapp") ["models"; "helper"; "enums"]))])) /\
    forall k, m' !! k =
      if bool_decide (k = ["home"; "myapp"] ++ ["models"; "helper"; "enums"] ++ ["__init__.py"])
      then Some (File "")
      else match ex_fs !! k with
           | Some e => Some e
           | None => if bool_decide (k ∈ chain ["home"; "myapp"] ["models"; "helper"; "enums"])
                     then Some Dir else None
           end.
Proof.
  split; [exact ex_fs_wf|]. split; [vm_compute; reflexivity|].
  split; [vm_compute; reflexivity|]. split; [vm_compute; reflexivity|].
  split; [discriminate|]. split; [vm_compute; reflexivity|]. split; [vm_compute; reflexivity|].
  apply (cfwi_creates_chain ["home"] (base_path ["home"] "myapp") ["home"; "myapp"] ex_fs []
           ["models"; "helper"; "enums"]);
    [exact ex_fs_wf|vm_compute; reflexivity|vm_compute; reflexivity|vm_compute; reflexivity
    |discriminate|vm_compute; reflexivity|vm_compute; reflexivity].
Defined.

(** C7 fails when a parent on the path is a regular file: [/home/f/new]
    does not exist, but [os.makedirs] raises [NotADirectoryError] and
    nothing is created. *)
Lemma cfwi_creates_chain_counterexample :
  wf ex_fs_parent_file /\
  exists_b ["home"] ex_fs_parent_file [""; "home"; "f"; "new"] = false /\
  create_folder_with_init ["home"] [""; "home"; "f"; "new"] (mkState ex_fs_parent_file []) =
    Exc ENOTDIR (mkState ex_fs_parent_file []).
Proof. split; [unfold ex_fs_parent_file; solve_wf|]. vm_compute. split; reflexivity. Qed.

Lemma handle_base_is_file_witness :
  wf ex_fs_file /\ is_dir ex_fs_file ["home"] = true /\
  resolve ["home"] ex_fs_file (base_path ["home"] "myapp") = inr ["home"; "myapp"] /\
  entry_at ex_fs_file ["home"; "myapp"] = Some (File "x") /\
  exists_b ["home"] ex_fs_file (base_path ["home"] "myapp") = true /\
  handle ["home"] "myapp" (mkState ex_fs_file []) = Exc ENOTDIR (mkState ex_fs_file []).
Proof.
  split; [exact ex_fs_file_wf|]. split; [vm_compute; reflexivity|].
  split; [vm_compute; reflexivity|]. split; [vm_compute; reflexivity|].
  apply (handle_base_is_file ["home"] "myapp" ex_fs_file [] ["home"; "myapp"] "x");
    [exact ex_fs_file_wf|vm_compute; reflexivity..].
Defined.

Lemma handle_frame_witness :
  wf ex_fs_admin /\ ex_fs_admin !! ["home"; "myapp"; "admin.py"] = Some (File "x") /\
  (fsys (res_state (handle ["home"] "myapp" (mkState ex_fs_admin []))) !! ["home"; "myapp"; "admin.py"]
     = Some (File "x") \/
   exists B d c, resolve ["home"] ex_fs_admin (base_path ["home"] "myapp") = inr B /\
     d ∈ default_files /\ ["home"; "myapp"; "admin.py"] = B ++ [d] /\ File "x" = File c /\
     fsys (res_state (handle ["home"] "myapp" (mkState ex_fs_admin []))) !! ["home"; "myapp"; "admin.py"]
       = None).
Proof.
  split; [exact ex_fs_admin_wf|]. split; [vm_compute; reflexivity|].
  apply (handle_frame ["home"] "myapp" ex_fs_admin [] ["home"; "myapp"; "admin.py"] (File "x"));
    [exact ex_fs_admin_wf|vm_compute; reflexivity].
Defined.

Lemma handle_empty_app_name_witness :
  wf ex_fs /\ forallb plainb ["home"] = true /\ is_dir ex_fs ["home"] = true /\
  resolve ["home"] ex_fs (base_path ["home"] "") = inr ["home"] /\
  exists_b ["home"] ex_fs (base_path ["home"] "") = true /\
  handle ["home"] "" (mkState ex_fs []) =
  (mfor code_ops (aop (base_path ["home"] "") ["home"]) ;; emit (final_msg "")) (mkState ex_fs []).
Proof.
  split; [exact ex_fs_wf|]. split; [vm_compute; reflexivity|]. split; [vm_compute; reflexivity|].
  apply (handle_empty_app_name ["home"] ex_fs []);
    [exact ex_fs_wf|vm_compute; reflexivity|vm_compute; reflexivity].
Defined.

(** C10 fails when the working directory holds a directory [models.py]:
    its [admin.py] is present, yet the run raises [IsADirectoryError]
    before deleting it. *)
Lemma handle_empty_app_name_counterexample :
  wf ex_fs_cwd /\ is_dir ex_fs_cwd ["home"] = true /\
  exists_b ["home"] ex_fs_cwd [""; "home"; "admin.py"] = true /\
  handle ["home"] "" (mkState ex_fs_cwd []) = Exc EISDIR (mkState ex_fs_cwd []) /\
  fsys (res_state (handle ["home"] "" (mkState ex_fs_cwd []))) !! ["home"; "admin.py"] = Some (File "x").
Proof. split; [exact ex_fs_cwd_wf|]. vm_compute. repeat split. Qed.

(** ** Further properties of the command *)

(** The [os] operations write no message. *)
Lemma mkdir_out cwd p s : out (res_state (os_mkdir cwd p s)) = out s.
Proof.
  unfold os_mkdir. destruct (strip_trailing p) as [|x r]; [reflexivity|].
  destruct (resolve_parent cwd (fsys s) (x :: r)) as [e|[d n]]; [reflexivity|].
  destruct (String.eqb n "." || String.eqb n ".."); [reflexivity|].
  destruct (present (fsys s) (d ++ [n])); reflexivity.
Qed.

Lemma open_out cwd p s : out (res_state (open_w cwd p s)) = out s.
Proof.
  unfold open_w. destruct (resolve_parent cwd (fsys s) p) as [e|[d n]]; [reflexivity|].
  destruct (String.eqb n "" || String.eqb n "." || String.eqb n ".."); [reflexivity|].
  destruct (entry_at (fsys s) (d ++ [n])) as [[]|]; reflexivity.
Qed.

Lemma makedirs_out cwd fuel name s : out (res_state (makedirs_fuel cwd fuel name s)) = out s.
Proof.
  revert name s. induction fuel as [|fuel IH]; intros name s; [apply mkdir_out|].
  cbn [makedirs_fuel].
  destruct (let '(h, t) := posix_split name in
            if String.eqb t "" then posix_split h else (h, t)) as [head tail].
  destruct (nonempty_path head && negb (String.eqb tail "")); [|apply mkdir_out].
  unfold_monad. unfold os_path_exists, read_fs.
  destruct (exists_b cwd (fsys s) head); [apply mkdir_out|].
  unfold catch_eexist. pose proof (IH head s) as H1.
  destruct (makedirs_fuel cwd fuel head s) as [[] s1|e s1]; simpl in H1.
  - destruct (String.eqb tail "."); [exact H1|rewrite mkdir_out; exact H1].
  - destruct e; try exact H1.
    destruct (String.eqb tail "."); [exact H1|rewrite mkdir_out; exact H1].
Qed.

(** [create_folder_with_init] writes no message when it raises; when it
    returns, it has written nothing if the path existed, and exactly the
    message [Created <path>] if it did not. *)
Theorem cfwi_messages cwd p s :
  match create_folder_with_init cwd p s with
  | Ok _ s' => out s' = if exists_b cwd (fsys s) p then out s
                        else out s ++ [SUCCESS ("Created " ++ render p)]
  | Exc _ s' => out s' = out s
  end.
Proof.
  unfold create_folder_with_init. unfold_monad. unfold os_path_exists, read_fs.
  destruct (exists_b cwd (fsys s) p); [reflexivity|].
  unfold os_makedirs. pose proof (makedirs_out cwd (List.length p) p s) as H1.
  destruct (makedirs_fuel cwd (List.length p) p s) as [[] s1|e s1]; simpl in H1; [|exact H1].
  pose proof (open_out cwd (posix_join p ["__init__.py"]) s1) as H2.
  destruct (open_w cwd (posix_join p ["__init__.py"]) s1) as [[] s2|e s2]; simpl in H2;
    [|congruence].
  unfold emit. simpl. rewrite H2, H1. reflexivity.
Qed.

Lemma entry_at_delete_ne m k l : k <> l -> entry_at (delete k m) l = entry_at m l.
Proof. intros H. destruct l as [|x l]; [reflexivity|]. simpl. apply lookup_delete_ne. exact H. Qed.

Lemma entry_at_insert_ne m k e l : k <> l -> entry_at (<[k := e]> m) l = entry_at m l.
Proof. intros H. destruct l as [|x l]; [reflexivity|]. simpl. apply lookup_insert_ne. exact H. Qed.

Lemma snoc_ne (B : list string) d d' : d <> d' -> B ++ [d] <> B ++ [d'].
Proof. intros H E. apply app_inj_tail in E as [_ E]. congruence. Qed.

Lemma forallb_filter_ext {A} (f g : A -> bool) l :
  (forall x, In x l -> f x = g x) -> forallb f l = forallb g l /\ List.filter f l = List.filter g l.
Proof.
  induction l as [|x l IH]; intros H; [auto|]. simpl.
  rewrite (H x (or_introl eq_refl)). destruct (IH (fun y Hy => H y (or_intror Hy))) as [-> ->]. auto.
Qed.

(** The removal loop over distinct names [ds]: it raises
    [IsADirectoryError] exactly when one of the [B/d] is a directory;
    otherwise it deletes every [B/d] and writes one warning per file that
    existed, in order. *)
Lemma mfor_remove q B ds m o :
  NoDup ds ->
  match mfor (map RemoveOp ds) (aop q B) (mkState m o) with
  | Ok _ s' => forallb (fun d => negb (is_dir m (B ++ [d]))) ds = true /\
      s' = mkState (delete_defaults B ds m)
             (o ++ map (fun d => WARNING ("Removed " ++ render (op_path q [d])))
                       (List.filter (fun d => present m (B ++ [d])) ds))
  | Exc e _ => e = EISDIR /\ forallb (fun d => negb (is_dir m (B ++ [d]))) ds = false
  end.
Proof.
  revert m o. induction ds as [|d ds IH]; intros m o Hnd.
  - simpl. rewrite app_nil_r. auto.
  - apply NoDup_cons in Hnd as [Hd Hnd].
    assert (Hext : forall m', (forall x, In x ds -> entry_at m' (B ++ [x]) = entry_at m (B ++ [x])) ->
      forallb (fun d => negb (is_dir m' (B ++ [d]))) ds = forallb (fun d => negb (is_dir m (B ++ [d]))) ds /\
      List.filter (fun d => present m' (B ++ [d])) ds = List.filter (fun d => present m (B ++ [d])) ds).
    { intros m' Hm'. split; apply forallb_filter_ext; intros x Hx; unfold is_dir, present; rewrite Hm' by exact Hx;
        reflexivity. }
    assert (Hdir : is_dir m (B ++ [d]) = match entry_at m (B ++ [d]) with Some Dir => true | _ => false end)
      by reflexivity.
    assert (Hpr : present m (B ++ [d]) = match entry_at m (B ++ [d]) with Some _ => true | None => false end)
      by reflexivity.
    cbn [map mfor]. unfold_monad. unfold aop at 1. cbn [fsys out].
    destruct (entry_at m (B ++ [d])) as [[|c]|] eqn:E.
    + split; [reflexivity|]. simpl. rewrite Hdir. reflexivity.
    + specialize (IH (delete (B ++ [d]) m) (o ++ [WARNING ("Removed " ++ render (op_path q [d]))]) Hnd).
      destruct (Hext (delete (B ++ [d]) m)) as [Hf Hg].
      { intros x Hx. apply entry_at_delete_ne, snoc_ne. intros ->. apply Hd, list_elem_of_In, Hx. }
      destruct (mfor (map RemoveOp ds) (aop q B) _) as [[] s'|e s'].
      * destruct IH as [H1 ->]. rewrite Hf in H1. rewrite Hg.
        simpl. rewrite Hdir, Hpr, H1. simpl.
        rewrite <- app_assoc. split; reflexivity.
      * destruct IH as [-> H1]. rewrite Hf in H1. simpl. rewrite H1, andb_false_r. auto.
    + assert (Hdel : delete (B ++ [d]) m = m)
        by (apply delete_id; rewrite <- entry_at_snoc; exact E).
      specialize (IH m o Hnd).
      destruct (mfor (map RemoveOp ds) (aop q B) (mkState m o)) as [[] s'|e s'].
      * destruct IH as [H1 ->]. simpl. rewrite Hdir, Hpr, H1.
        simpl. unfold delete_defaults. simpl. rewrite Hdel. auto.
      * destruct IH as [-> H1]. simpl. rewrite H1, andb_false_r. auto.
Qed.

Lemma NoDup_default_files : NoDup default_files.
Proof. unfold default_files. repeat constructor; set_solver. Qed.

(** [remove_default_files] on an app directory [B]: when none of
    [B/models.py], [B/admin.py], [B/tests.py], [B/views.py] is a directory,
    it returns normally, all four are gone, and it has written one
    [Removed <path>] warning for each of them that existed, in this order;
    when one of them is a directory, it raises [IsADirectoryError]. *)
Theorem remove_default_files_result cwd q B m o :
  wf m -> resolve cwd m q = inr B -> present m B = true ->
  (forallb (fun d => negb (is_dir m (B ++ [d]))) default_files = true ->
   remove_default_files cwd q (mkState m o) =
   Ok tt (mkState (delete_defaults B default_files m)
            (o ++ map (fun d => WARNING ("Removed " ++ render (posix_join q [d])))
                      (List.filter (fun d => present m (B ++ [d])) default_files)))) /\
  (forallb (fun d => negb (is_dir m (B ++ [d]))) default_files = false ->
   exists s', remove_default_files cwd q (mkState m o) = Exc EISDIR s').
Proof.
  intros Hwf HR HB.
  rewrite (remove_refines cwd q B _ (base_inv_intro cwd q B m o Hwf HR HB)).
  pose proof (mfor_remove q B default_files m o NoDup_default_files) as H.
  destruct (mfor (map RemoveOp default_files) (aop q B) (mkState m o)) as [[] s'|e s'].
  - destruct H as [H1 ->]. split; [intros _; reflexivity|]. intros H2. congruence.
  - destruct H as [-> H1]. split; [intros H2; congruence|]. intros _. exists s'. reflexivity.
Qed.

Lemma remove_default_files_result_witness :
  wf ex_fs_admin /\
  resolve ["home"] ex_fs_admin (base_path ["home"] "myapp") = inr ["home"; "myapp"] /\
  present ex_fs_admin ["home"; "myapp"] = true /\
  forallb (fun d => negb (is_dir ex_fs_admin (["home"; "myapp"] ++ [d]))) default_files = true /\
  remove_default_files ["home"] (base_path ["home"] "myapp") (mkState ex_fs_admin []) =
    Ok tt (mkState (delete_defaults ["home"; "myapp"] default_files ex_fs_admin)
      ([] ++ map (fun d => WARNING ("Removed " ++ render (posix_join (base_path ["home"] "myapp") [d])))
                 (List.filter (fun d => present ex_fs_admin (["home"; "myapp"] ++ [d])) default_files))).
Proof.
  split; [exact ex_fs_admin_wf|]. split; [vm_compute; reflexivity|].
  split; [vm_compute; reflexivity|]. split; [vm_compute; reflexivity|].
  apply (remove_default_files_result ["home"] (base_path ["home"] "myapp") ["home"; "myapp"] ex_fs_admin []);
    [exact ex_fs_admin_wf|vm_compute; reflexivity..].
Defined.





Lemma code_ops_create_in rel : In (CreateOp rel) code_ops -> rel ∈ code_creations.
Proof.
  rewrite code_ops_split. intros H. apply in_app_or in H as [H|H];
    apply in_map_iff in H as [x [Ex Hx]]; [discriminate|].
  injection Ex as ->. apply list_elem_of_In. exact Hx.
Qed.

(** Every entry a run adds is one of the folders of the layout under the
    app directory [B], or the empty [__init__.py] inside one of them. *)
Theorem handle_new_entries cwd app m o k e :
  wf m -> m !! k = None ->
  fsys (res_state (handle cwd app (mkState m o))) !! k = Some e ->
  exists B rel, resolve cwd m (base_path cwd app) = inr B /\ rel ∈ scaffold_dirs /\
    ((k = B ++ rel /\ e = Dir) \/ (k = B ++ rel ++ ["__init__.py"] /\ e = File "")).
Proof.
  intros Hwf Hk.
  destruct (handle_cases cwd app m o Hwf) as [[_ ->]|[[_ [_ ->]]|[B [Hc [HR [HB ->]]]]]];
    [cbn; congruence|cbn; congruence|].
  rewrite then_emit_fsys. set (q := base_path cwd app).
  set (Inv := fun s : state => fsys s !! k = Some e ->
    exists rel, rel ∈ code_creations /\
      ((k = B ++ rel /\ e = Dir) \/ (k = B ++ rel ++ ["__init__.py"] /\ e = File ""))).
  intros H.
  assert (Hinv : Inv (res_state (mfor code_ops (aop q B) (mkState m o)))).
  { apply mfor_inv; [|intros H'; cbn in H'; congruence].
    intros op s Hin Hs. destruct (aop q B op s) as [[] s1|e1 s1] eqn:E; cbn [res_state].
    - destruct (aop_ok_shape q B op s s1 E)
        as [Hf|[[d [c [-> [_ Hf]]]]|[rel [c [n [-> [-> [-> [_ [_ Hf]]]]]]]]]];
        unfold Inv; rewrite Hf.
      + exact Hs.
      + rewrite lookup_delete. case_decide; [discriminate|exact Hs].
      + pose proof (code_ops_create_in rel Hin) as Hrel.
        assert (Hne : rel <> []).
        { pose proof code_creations_nonempty as Hall. rewrite Forall_forall in Hall.
          exact (Hall rel Hrel). }
        rewrite init_key, create_key by exact Hne. rewrite <- app_assoc.
        intros Hl. destruct (decide (k = B ++ rel ++ ["__init__.py"])) as [->|Hn1].
        * rewrite lookup_insert_eq in Hl. injection Hl as <-. exists rel. auto.
        * rewrite lookup_insert_ne in Hl by congruence.
          destruct (decide (k = B ++ rel)) as [->|Hn2].
          -- rewrite lookup_insert_eq in Hl. injection Hl as <-. exists rel. auto.
          -- rewrite lookup_insert_ne in Hl by congruence. exact (Hs Hl).
    - rewrite (aop_exc_state _ _ _ _ _ _ E). exact Hs. }
  destruct (Hinv H) as [rel [Hrel Hk']]. exists B, rel. split; [exact HR|]. split; [|exact Hk'].
  rewrite <- code_creations_perm. exact Hrel.
Qed.

Lemma handle_new_entries_witness :
  wf ex_fs /\ ex_fs !! ["home"; "myapp"; "admin"] = None /\
  fsys (res_state (handle ["home"] "myapp" (mkState ex_fs []))) !! ["home"; "myapp"; "admin"] = Some Dir /\
  exists B rel, resolve ["home"] ex_fs (base_path ["home"] "myapp") = inr B /\ rel ∈ scaffold_dirs /\
    ((["home"; "myapp"; "admin"] = B ++ rel /\ Dir = Dir) \/
     (["home"; "myapp"; "admin"] = B ++ rel ++ ["__init__.py"] /\ Dir = File "")).
Proof.
  split; [exact ex_fs_wf|]. split; [vm_compute; reflexivity|]. split; [vm_compute; reflexivity|].
  apply (handle_new_entries ["home"] "myapp" ex_fs [] ["home"; "myapp"; "admin"] Dir);
    [exact ex_fs_wf|vm_compute; reflexivity..].
Defined.

Lemma delete_defaults_cases B ds m k :
  delete_defaults B ds m !! k = None \/ delete_defaults B ds m !! k = m !! k.
Proof.
  unfold delete_defaults. revert m. induction ds as [|d ds IH]; intros m; [right; reflexivity|].
  simpl. destruct (IH (delete (B ++ [d]) m)) as [H|H]; [left; exact H|].
  rewrite H, lookup_delete. case_decide; auto.
Qed.

Lemma delete_defaults_none B ds m k : m !! k = None -> delete_defaults B ds m !! k = None.
Proof. intros H. destruct (delete_defaults_cases B ds m k) as [E|E]; congruence. Qed.

Lemma delete_defaults_in B ds m d : d ∈ ds -> delete_defaults B ds m !! (B ++ [d]) = None.
Proof.
  unfold delete_defaults. revert m. induction ds as [|d' ds IH]; intros m Hd;
    [apply elem_of_nil in Hd; contradiction|].
  simpl. apply elem_of_cons in Hd as [->|Hd].
  - apply delete_defaults_none, lookup_delete_eq.
  - apply IH, Hd.
Qed.

Lemma delete_defaults_ne B ds m k :
  (forall d, d ∈ ds -> k <> B ++ [d]) -> delete_defaults B ds m !! k = m !! k.
Proof.
  unfold delete_defaults. revert m. induction ds as [|d ds IH]; intros m H; [reflexivity|].
  simpl. rewrite IH by (intros d' Hd'; apply H; right; exact Hd').
  apply lookup_delete_ne. intros E. apply (H d); [left|symmetry; exact E].
Qed.

Lemma creation_nonempty rel : rel ∈ code_creations -> rel <> [].
Proof. intros H. pose proof code_creations_nonempty as Hall. rewrite Forall_forall in Hall. exact (Hall rel H). Qed.

Lemma app_rel_nonnil (B rel : list string) : rel <> [] -> B ++ rel <> [].
Proof. intros Hne E. apply app_eq_nil in E as [_ E]. contradiction. Qed.

Lemma scaffold_inv_delete_defaults B ds m :
  scaffold_inv B m -> scaffold_inv B (delete_defaults B ds m).
Proof.
  intros [HB Hrel]. split.
  - destruct (decide (B = [])) as [->|Hne]; [reflexivity|].
    unfold is_dir in *. rewrite entry_at_nonnil in * by exact Hne.
    rewrite delete_defaults_ne; [exact HB|]. intros d _ E. apply (snoc_neq B d). symmetry. exact E.
  - intros rel Hr Hp. specialize (Hrel rel Hr).
    pose proof (app_rel_nonnil B rel (creation_nonempty rel Hr)) as Hne.
    assert (E : entry_at (delete_defaults B ds m) (B ++ rel) = entry_at m (B ++ rel)).
    { unfold present in Hp. rewrite !entry_at_nonnil in * by exact Hne.
      destruct (delete_defaults_cases B ds m (B ++ rel)) as [E|E]; [rewrite E in Hp; discriminate|exact E]. }
    unfold is_dir, present in *. rewrite E in *. apply Hrel. exact Hp.
Qed.

Lemma entry_at_ins B rel m p :
  rel <> [] ->
  entry_at (ins B rel m) p =
  if decide (p = B ++ rel ++ ["__init__.py"]) then Some (File "")
  else if decide (p = B ++ rel) then Some Dir else entry_at m p.
Proof.
  intros Hne. unfold ins.
  destruct (decide (p = B ++ rel ++ ["__init__.py"])) as [->|H1].
  - rewrite app_assoc, entry_at_snoc, lookup_insert_eq. reflexivity.
  - destruct (decide (p = B ++ rel)) as [->|H2].
    + rewrite entry_at_nonnil by exact (app_rel_nonnil B rel Hne).
      rewrite lookup_insert_ne by (intros E; apply (f_equal (@List.length string)) in E;
        rewrite !length_app in E; simpl in E; lia).
      apply lookup_insert_eq.
    + destruct p as [|x p]; [reflexivity|]. simpl.
      rewrite lookup_insert_ne by congruence. apply lookup_insert_ne. congruence.
Qed.

Lemma scaffold_inv_create B rel m :
  scaffold_inv B m -> rel ∈ code_creations -> scaffold_inv B (ins B rel m).
Proof.
  intros [HB Hrel] Hr. pose proof (creation_nonempty rel Hr) as Hne. split.
  - unfold is_dir. rewrite entry_at_ins by exact Hne.
    destruct (decide (B = B ++ rel ++ ["__init__.py"])) as [E|_].
    + apply (f_equal (@List.length string)) in E. rewrite !length_app in E. simpl in E. lia.
    + destruct (decide (B = B ++ rel)); [reflexivity|exact HB].
  - intros rel' Hr' Hp. unfold is_dir, present in *. rewrite entry_at_ins in * by exact Hne.
    destruct (decide (B ++ rel' = B ++ rel ++ ["__init__.py"])) as [E|_].
    + apply app_inj_l in E. pose proof code_creations_no_init as Hall. rewrite Forall_forall in Hall.
      destruct (Hall rel' Hr'). rewrite E. apply elem_of_app. right. left.
    + destruct (decide (B ++ rel' = B ++ rel)); [reflexivity|]. apply Hrel; assumption.
Qed.

Lemma present_ins B rel m l : present m l = true -> present (ins B rel m) l = true.
Proof. intros H. unfold ins. apply present_insert, present_insert, H. Qed.

Lemma code_creations_parents_first : parents_first [] code_creations = true.
Proof. vm_compute. reflexivity. Qed.

Lemma creations_op_ok : forallb op_ok (map CreateOp code_creations) = true.
Proof. vm_compute. reflexivity. Qed.

(** The creation steps, run on a map where every existing target is a
    directory and every target's parent is [B] or an earlier target, all
    succeed and leave every target present. *)
Lemma mfor_creations_ok q B prior rels m o :
  scaffold_inv B m ->
  (forall r, r ∈ rels -> r ∈ code_creations) ->
  (forall p, p ∈ prior -> p ∈ code_creations /\ present m (B ++ p) = true) ->
  parents_first prior rels = true ->
  exists s', mfor (map CreateOp rels) (aop q B) (mkState m o) = Ok tt s' /\
    scaffold_inv B (fsys s') /\
    (forall p, p ∈ prior ++ rels -> present (fsys s') (B ++ p) = true) /\
    exists msgs, out s' = o ++ msgs.
Proof.
  revert prior m o. induction rels as [|rel rels IH]; intros prior m o Hinv Hrels Hprior Hpf.
  - exists (mkState m o). split; [reflexivity|]. split; [exact Hinv|]. split.
    + intros p Hp. rewrite app_nil_r in Hp. exact (proj2 (Hprior p Hp)).
    + exists []. rewrite app_nil_r. reflexivity.
  - simpl in Hpf. apply andb_prop in Hpf as [Hpar Hpf].
    assert (Hrel : rel ∈ code_creations) by (apply Hrels; left).
    pose proof (creation_nonempty rel Hrel) as Hne.
    assert (Hrels' : forall r, r ∈ rels -> r ∈ code_creations) by (intros r Hr; apply Hrels; right; exact Hr).
    cbn [map mfor]. unfold_monad. rewrite (aop_create q B rel m o Hne).
    destruct (present m (B ++ rel)) eqn:Hp.
    + destruct (IH (prior ++ [rel]) m o Hinv Hrels') as [s' [E [Hi [Hall Hmsg]]]]; [|exact Hpf|].
      { intros p Hp'. apply elem_of_app in Hp' as [Hp'|Hp']; [exact (Hprior p Hp')|].
        apply list_elem_of_singleton in Hp' as ->. auto. }
      exists s'. split; [exact E|]. split; [exact Hi|]. split; [|exact Hmsg].
      intros p Hp'. apply Hall. rewrite <- app_assoc. exact Hp'.
    + assert (Hdir : is_dir m (B ++ removelast rel) = true).
      { apply orb_prop in Hpar as [Hpar|Hpar]; apply bool_decide_eq_true in Hpar.
        - rewrite Hpar, app_nil_r. exact (proj1 Hinv).
        - destruct (Hprior _ Hpar) as [Hc Hpr]. exact (proj2 Hinv _ Hc Hpr). }
      rewrite Hdir. fold (ins B rel m).
      destruct (IH (prior ++ [rel]) (ins B rel m) (o ++ [SUCCESS ("Created " ++ render (op_path q rel))])
                  (scaffold_inv_create B rel m Hinv Hrel) Hrels') as [s' [E [Hi [Hall [msgs Hmsg]]]]];
        [|exact Hpf|].
      { intros p Hp'. apply elem_of_app in Hp' as [Hp'|Hp'].
        - destruct (Hprior p Hp') as [Hc Hpr]. split; [exact Hc|]. apply present_ins, Hpr.
        - apply list_elem_of_singleton in Hp' as ->. split; [exact Hrel|].
          unfold present. rewrite entry_at_ins by exact Hne.
          destruct (decide _); [reflexivity|]. rewrite decide_True by reflexivity. reflexivity. }
      exists s'. split; [exact E|]. split; [exact Hi|]. split.
      * intros p Hp'. apply Hall. rewrite <- app_assoc. exact Hp'.
      * exists (SUCCESS ("Created " ++ render (op_path q rel)) :: msgs). rewrite Hmsg, <- app_assoc. reflexivity.
Qed.

(** A run on an existing app directory [B] ends normally whenever none of
    [B/models.py], [B/admin.py], [B/tests.py], [B/views.py] is a directory
    and every folder of the layout that already exists under [B] is a
    directory. Afterwards every folder of the layout is a directory under
    [B], none of the four default files is left, and the output is the
    previous output, then the step messages, then the final message. *)
Theorem handle_scaffold_ok cwd app m o B :
  wf m -> is_dir m cwd = true -> resolve cwd m (base_path cwd app) = inr B -> is_dir m B = true ->
  forallb (fun d => negb (is_dir m (B ++ [d]))) default_files = true ->
  forallb (fun rel => negb (present m (B ++ rel)) || is_dir m (B ++ rel)) scaffold_dirs = true ->
  exists s', handle cwd app (mkState m o) = Ok tt s' /\
    (forall rel, rel ∈ scaffold_dirs -> is_dir (fsys s') (B ++ rel) = true) /\
    (forall d, d ∈ default_files -> fsys s' !! (B ++ [d]) = None) /\
    exists msgs, out s' = o ++ msgs ++ [final_msg app].
Proof.
  intros Hwf Hc HR HB Hdef Hscaf.
  rewrite (handle_exists cwd app m o B Hwf Hc HR (is_dir_present _ _ HB)).
  set (q := base_path cwd app). unfold_monad. rewrite code_ops_split, mfor_app.
  pose proof (mfor_remove q B default_files m o NoDup_default_files) as Hrm.
  destruct (mfor (map RemoveOp default_files) (aop q B) (mkState m o)) as [[] s1|e s1];
    [|destruct Hrm as [_ Hf]; congruence].
  destruct Hrm as [_ ->].
  assert (Hinv : scaffold_inv B m).
  { split; [exact HB|]. intros rel Hr Hp.
    rewrite forallb_forall in Hscaf.
    assert (Hr' : In rel scaffold_dirs)
      by (apply list_elem_of_In; rewrite <- code_creations_perm; exact Hr).
    specialize (Hscaf rel Hr'). rewrite Hp in Hscaf. exact Hscaf. }
  destruct (mfor_creations_ok q B [] code_creations (delete_defaults B default_files m)
              (o ++ map (fun d => WARNING ("Removed " ++ render (op_path q [d])))
                        (List.filter (fun d => present m (B ++ [d])) default_files))
              (scaffold_inv_delete_defaults B default_files m Hinv) (fun r H => H)
              ltac:(intros p Hp; apply elem_of_nil in Hp; contradiction)
              code_creations_parents_first)
    as [s2 [E2 [Hinv2 [Hall [msgs Hmsg]]]]].
  rewrite E2. eexists. split; [reflexivity|]. cbn [fsys out]. split; [|split].
  - intros rel Hr. rewrite <- code_creations_perm in Hr.
    exact (proj2 Hinv2 rel Hr (Hall rel Hr)).
  - intros d Hd. rewrite <- entry_at_snoc.
    apply (mfor_keeps_settled q B (RemoveOp d) (map CreateOp code_creations) _ s2
             (default_op_ok d Hd) creations_op_ok E2).
    cbn [settled fsys]. rewrite entry_at_snoc. apply delete_defaults_in, Hd.
  - rewrite Hmsg.
    match goal with |- exists _, ((_ ++ ?w) ++ ?ms) ++ _ = _ => exists (w ++ ms) end.
    rewrite <- !app_assoc. reflexivity.
Qed.

Lemma handle_scaffold_ok_witness :
  wf ex_fs_admin /\ is_dir ex_fs_admin ["home"] = true /\
  resolve ["home"] ex_fs_admin (base_path ["home"] "myapp") = inr ["home"; "myapp"] /\
  is_dir ex_fs_admin ["home"; "myapp"] = true /\
  forallb (fun d => negb (is_dir ex_fs_admin (["home"; "myapp"] ++ [d]))) default_files = true /\
  forallb (fun rel => negb (present ex_fs_admin (["home"; "myapp"] ++ rel)) ||
                      is_dir ex_fs_admin (["home"; "myapp"] ++ rel)) scaffold_dirs = true /\
  exists s', handle ["home"] "myapp" (mkState ex_fs_admin []) = Ok tt s' /\
    (forall rel, rel ∈ scaffold_dirs -> is_dir (fsys s') (["home"; "myapp"] ++ rel) = true) /\
    (forall d, d ∈ default_files -> fsys s' !! (["home"; "myapp"] ++ [d]) = None) /\
    exists msgs, out s' = [] ++ msgs ++ [final_msg "myapp"].
Proof.
  split; [exact ex_fs_admin_wf|]. split; [vm_compute; reflexivity|].
  split; [vm_compute; reflexivity|]. split; [vm_compute; reflexivity|].
  split; [vm_compute; reflexivity|]. split; [vm_compute; reflexivity|].
  apply (handle_scaffold_ok ["home"] "myapp" ex_fs_admin [] ["home"; "myapp"]);
    [exact ex_fs_admin_wf|vm_compute; reflexivity..].
Defined.

Lemma flatten_creates tbl : Forall (fun o => exists rel, o = CreateOp rel) (flatten_structure tbl).
Proof.
  unfold flatten_structure. induction tbl as [|[f subs] tbl IH]; [constructor|].
  cbn [map List.concat]. apply Forall_app. split; [|exact IH].
  constructor; [eauto|]. induction subs as [|x subs IHs]; constructor; eauto.
Qed.

Lemma flatten_in tbl f subs :
  In (f, subs) tbl ->
  In (CreateOp [f]) (flatten_structure tbl) /\
  forall x, In x subs -> In (CreateOp [f; x]) (flatten_structure tbl).
Proof.
  unfold flatten_structure. intros H. split.
  - apply in_concat. exists (CreateOp [f] :: map (fun x => CreateOp [f; x]) subs).
    split; [|left; reflexivity]. apply in_map_iff. exists (f, subs). auto.
  - intros x Hx. apply in_concat. exists (CreateOp [f] :: map (fun x => CreateOp [f; x]) subs).
    split; [apply in_map_iff; exists (f, subs); auto|]. right. apply in_map_iff. eauto.
Qed.

(** [create_folder_structure base_dir structure], for any table of plain
    folder names and an existing location [B] of [base_dir]: when it
    returns normally, [B/folder] and [B/folder/subfolder] exist for every
    entry [folder: [..., subfolder, ...]] of the table. *)
Theorem create_folder_structure_done cwd q B tbl m o s' :
  wf m -> resolve cwd m q = inr B -> present m B = true ->
  Forall (fun fs => plainb (fst fs) = true /\ forallb plainb (snd fs) = true) tbl ->
  create_folder_structure cwd q tbl (mkState m o) = Ok tt s' ->
  forall f subs, In (f, subs) tbl ->
    present (fsys s') (B ++ [f]) = true /\
    forall x, In x subs -> present (fsys s') (B ++ [f; x]) = true.
Proof.
  intros Hwf HR HB Hplain H f subs Hin.
  rewrite (cfs_refines cwd q B tbl _ Hplain (base_inv_intro cwd q B m o Hwf HR HB)) in H.
  destruct (flatten_in tbl f subs Hin) as [H1 H2]. split.
  - exact (mfor_create_done q B _ _ _ [f] (flatten_creates tbl) H H1 (cons_ne_nil _ _)).
  - intros x Hx. exact (mfor_create_done q B _ _ _ [f; x] (flatten_creates tbl) H (H2 x Hx) (cons_ne_nil _ _)).
Qed.

Lemma create_folder_structure_done_witness :
  wf ex_fs /\ resolve ["home"] ex_fs (base_path ["home"] "myapp") = inr ["home"; "myapp"] /\
  present ex_fs ["home"; "myapp"] = true /\
  create_folder_structure ["home"] (base_path ["home"] "myapp") [("docs", ["img"])] (mkState ex_fs []) =
    Ok tt (res_state (create_folder_structure ["home"] (base_path ["home"] "myapp") [("docs", ["img"])]
                        (mkState ex_fs []))) /\
  forall f subs, In (f, subs) [("docs", ["img"])] ->
    present (fsys (res_state (create_folder_structure ["home"] (base_path ["home"] "myapp")
                                [("docs", ["img"])] (mkState ex_fs [])))) (["home"; "myapp"] ++ [f]) = true /\
    forall x, In x subs ->
      present (fsys (res_state (create_folder_structure ["home"] (base_path ["home"] "myapp")
                                  [("docs", ["img"])] (mkState ex_fs [])))) (["home"; "myapp"] ++ [f; x]) = true.
Proof.
  split; [exact ex_fs_wf|]. split; [vm_compute; reflexivity|].
  split; [vm_compute; reflexivity|]. split; [vm_compute; reflexivity|].
  apply (create_folder_structure_done ["home"] (base_path ["home"] "myapp") ["home"; "myapp"]
           [("docs", ["img"])] ex_fs []);
    [exact ex_fs_wf|vm_compute; reflexivity|vm_compute; reflexivity
    |repeat constructor|vm_compute; reflexivity].
Defined.



Lemma aop_out q B op s s' :
  aop q B op s = Ok tt s' ->
  out s' = out s \/
  exists t, out s' = out s ++ [WARNING ("Removed " ++ t)] \/ out s' = out s ++ [SUCCESS ("Created " ++ t)].
Proof.
  destruct op as [d|rel]; simpl.
  - destruct (entry_at (fsys s) (B ++ [d])) as [[|c]|]; intros H; inversion H; subst; cbn [out]; eauto.
  - destruct (present _ _); [intros H; inversion H; subst; auto|].
    destruct (is_dir _ _); intros H; inversion H; subst; cbn [out]; eauto.
Qed.

Lemma mfor_out q B ops s s' :
  mfor ops (aop q B) s = Ok tt s' ->
  exists msgs, out s' = out s ++ msgs /\
    Forall (fun x => exists t, x = WARNING ("Removed " ++ t) \/ x = SUCCESS ("Created " ++ t)) msgs.
Proof.
  revert s. induction ops as [|op ops IH]; intros s H.
  - inversion H; subst. exists []. rewrite app_nil_r. auto.
  - simpl in H. unfold_monad. destruct (aop q B op s) as [[] s1|e s1] eqn:E; [|discriminate].
    destruct (IH s1 H) as [msgs [Hm Hall]].
    destruct (aop_out q B op s s1 E) as [Ho|[t [Ho|Ho]]]; rewrite Ho in Hm.
    + exists msgs. auto.
    + exists (WARNING ("Removed " ++ t) :: msgs). rewrite Hm, <- app_assoc. split; [reflexivity|].
      constructor; eauto.
    + exists (SUCCESS ("Created " ++ t) :: msgs). rewrite Hm, <- app_assoc. split; [reflexivity|].
      constructor; eauto.
Qed.

(** The output of a run that ends normally: when [base_dir] does not exist,
    the filesystem is untouched and the one message is the error naming the
    app; otherwise the run writes only [Removed ...] warnings and
    [Created ...] messages, then the final message, and no error. *)
Theorem handle_ok_output cwd app m o s' :
  wf m -> handle cwd app (mkState m o) = Ok tt s' ->
  (exists_b cwd m (base_path cwd app) = false /\
   s' = mkState m (o ++ [ERROR ("App '" ++ app ++ "' does not exist")])) \/
  (exists_b cwd m (base_path cwd app) = true /\
   exists msgs, out s' = o ++ msgs ++ [final_msg app] /\
     Forall (fun x => exists t, x = WARNING ("Removed " ++ t) \/ x = SUCCESS ("Created " ++ t)) msgs).
Proof.
  intros Hwf H.
  destruct (handle_cases cwd app m o Hwf) as [[Hc E]|[[Hc [Hx E]]|[B [Hc [HR [HB E]]]]]];
    rewrite E in H.
  - discriminate.
  - inversion H; subst. left. auto.
  - right. split; [unfold exists_b; rewrite HR; exact HB|].
    unfold_monad. destruct (mfor code_ops (aop (base_path cwd app) B) (mkState m o)) as [[] s1|e s1] eqn:E1;
      [|discriminate].
    destruct (mfor_out _ _ _ _ _ E1) as [msgs [Hm Hall]].
    inversion H; subst. exists msgs. cbn [out] in *. rewrite Hm, <- app_assoc. auto.
Qed.

Lemma ok_res_state (r : res unit) : is_ok r = true -> r = Ok tt (res_state r).
Proof. destruct r as [[] s|e s]; [reflexivity|discriminate]. Qed.

Lemma handle_ok_output_witness :
  wf ex_fs_admin /\ is_ok (handle ["home"] "myapp" (mkState ex_fs_admin [])) = true /\
  ((exists_b ["home"] ex_fs_admin (base_path ["home"] "myapp") = false /\
    res_state (handle ["home"] "myapp" (mkState ex_fs_admin [])) =
      mkState ex_fs_admin ([] ++ [ERROR ("App '" ++ "myapp" ++ "' does not exist")])) \/
   (exists_b ["home"] ex_fs_admin (base_path ["home"] "myapp") = true /\
    exists msgs, out (res_state (handle ["home"] "myapp" (mkState ex_fs_admin []))) =
                   [] ++ msgs ++ [final_msg "myapp"] /\
      Forall (fun x => exists t, x = WARNING ("Removed " ++ t) \/ x = SUCCESS ("Created " ++ t)) msgs)).
Proof.
  split; [exact ex_fs_admin_wf|]. split; [vm_compute; reflexivity|].
  apply (handle_ok_output ["home"] "myapp" ex_fs_admin []);
    [exact ex_fs_admin_wf|apply ok_res_state; vm_compute; reflexivity].
Defined.

Lemma split_slash_cons s cur : exists x l, split_slash s cur = x :: l.
Proof.
  revert cur. induction s as [|c s IH]; intros cur; simpl; [eauto|].
  destruct (Ascii.eqb c "/"%char); [eauto|apply IH].
Qed.

(** [os.path.join(cwd, app_name)] is [app_name] itself when [app_name]
    starts with ['/']. *)
Lemma base_path_abs cwd rest :
  exists x l, base_path cwd ("/" ++ rest) = "" :: x :: l /\ split_path ("/" ++ rest) = "" :: x :: l.
Proof.
  destruct (split_slash_cons rest "") as [x [l E]]. exists x, l.
  unfold base_path, split_path. simpl. change ("" ++ rest)%string with rest. rewrite E. split; reflexivity.
Qed.

(** For an absolute [app_name] (one that starts with ['/']), the run does
    not depend on the working directory, as long as that directory exists:
    [os.path.join] drops it, and every path of the run is resolved from the
    root. *)
Theorem handle_abs_app cwd1 cwd2 rest m o :
  wf m -> is_dir m cwd1 = true -> is_dir m cwd2 = true ->
  handle cwd1 ("/" ++ rest) (mkState m o) = handle cwd2 ("/" ++ rest) (mkState m o).
Proof.
  intros Hwf Hc1 Hc2. set (app := ("/" ++ rest)%string).
  destruct (base_path_abs cwd1 rest) as [x [l [Hq1 Hs1]]].
  destruct (base_path_abs cwd2 rest) as [x' [l' [Hq2 Hs2]]].
  assert (Hq : base_path cwd1 app = base_path cwd2 app) by (unfold app; congruence).
  assert (HR : resolve cwd1 m (base_path cwd1 app) = resolve cwd2 m (base_path cwd2 app)).
  { rewrite <- Hq. unfold app. rewrite Hq1. reflexivity. }
  destruct (exists_b cwd1 m (base_path cwd1 app)) eqn:Hx.
  - destruct (exists_resolve _ _ _ Hx) as [B [HR1 HB]].
    rewrite (handle_exists cwd1 app m o B Hwf Hc1 HR1 HB).
    rewrite (handle_exists cwd2 app m o B Hwf Hc2 ltac:(rewrite <- HR; exact HR1) HB).
    rewrite Hq. reflexivity.
  - assert (Hx2 : exists_b cwd2 m (base_path cwd2 app) = false)
      by (unfold exists_b in *; rewrite <- HR; exact Hx).
    rewrite (handle_missing cwd1 app m o Hc1 Hx), (handle_missing cwd2 app m o Hc2 Hx2). reflexivity.
Qed.

Lemma handle_abs_app_witness :
  wf ex_fs /\ is_dir ex_fs ["home"] = true /\ is_dir ex_fs [] = true /\
  handle ["home"] ("/" ++ "home/myapp") (mkState ex_fs []) = handle [] ("/" ++ "home/myapp") (mkState ex_fs []).
Proof.
  split; [exact ex_fs_wf|]. split; [vm_compute; reflexivity|]. split; [vm_compute; reflexivity|].
  apply (handle_abs_app ["home"] [] "home/myapp" ex_fs []);
    [exact ex_fs_wf|vm_compute; reflexivity..].
Defined.
